(** * seoduel: the SEO metric interpreter ([interpretSeoMetrics])

    A shallow embedding of the report engine of the seoduel application
    (the TypeScript module exporting [interpretSeoMetrics]) and the
    properties of its reports: rule outcomes per metric, the action
    summary, the aggregate score, the three-category breakdown and the
    weakest/strongest selection.

    The function takes [data: any].  The embedding therefore starts from a
    small universe of JavaScript values, defines the coercions the function
    applies to them, and embeds the function over that universe.  The
    typed fact record of the application ([PageFacts], every field
    optional) is then encoded into the universe, and the properties are
    stated for every such record. *)

From Stdlib Require Import ZArith List String Ascii Bool Lia Permutation.
From Stdlib Require Import Floats Uint63 DecimalString.
Import ListNotations.

Local Open Scope string_scope.
Local Open Scope list_scope.
Local Open Scope Z_scope.

Set Implicit Arguments.
Set Warnings "-register-all".

(* ================================================================== *)
(** ** JavaScript values and coercions *)
(* ================================================================== *)

(** The values the facts are made of: [undefined], [null], booleans,
    numbers and plain objects.  A [VNum n] is the double whose value is the
    integer [n]; the facts carry counts and lengths, which stay below
    [2^53], where doubles and integers agree.  An object is its list of
    own properties; the first binding of a key is the one a read sees.
    Strings, arrays and fractional numbers do not occur in the fields that
    the interpreter reads, and are left out. *)
Inductive value : Type :=
| VUndefined
| VNull
| VBool (b : bool)
| VNum (n : Z)
| VObj (props : list (string * value)).

(** A completion: the value of an expression, or a thrown [TypeError]. *)
Inductive completion (A : Type) : Type :=
| Return (a : A)
| Throw.

Arguments Return {A} a.
Arguments Throw {A}.

Definition bind {A B : Type} (c : completion A) (k : A -> completion B)
  : completion B :=
  match c with
  | Return a => k a
  | Throw => Throw
  end.

Notation "x <- c ;; k" := (bind c (fun x => k))
  (at level 61, c at next level, right associativity).

(** [ToBoolean]: what [!v], [v ? a : b] and [v && w] test. *)
Definition ToBoolean (v : value) : bool :=
  match v with
  | VUndefined | VNull => false
  | VBool b => b
  | VNum n => negb (n =? 0)
  | VObj _ => true
  end.

(** [ToNumber], [None] standing for [NaN]: [undefined] and plain objects
    (through their string form) give [NaN], [null] gives 0. *)
Definition ToNumber (v : value) : option Z :=
  match v with
  | VUndefined => None
  | VNull => Some 0
  | VBool b => Some (if b then 1 else 0)
  | VNum n => Some n
  | VObj _ => None
  end.

(** [v > k] and [v < k] against a numeric literal: false when [v] is
    [NaN] as a number. *)
Definition js_gt (v : value) (k : Z) : bool :=
  match ToNumber v with
  | Some n => k <? n
  | None => false
  end.

Definition js_lt (v : value) (k : Z) : bool :=
  match ToNumber v with
  | Some n => n <? k
  | None => false
  end.

(** [v === k] against a numeric literal: no coercion. *)
Definition js_strict_eq (v : value) (k : Z) : bool :=
  match v with
  | VNum n => n =? k
  | _ => false
  end.

(** [v !== undefined]. *)
Definition is_defined (v : value) : bool :=
  match v with
  | VUndefined => false
  | _ => true
  end.

(** The text a template literal substitutes for [${v}]. Integers print in
    decimal (as JavaScript prints them below [10^21]). *)
Definition ToString (v : value) : string :=
  match v with
  | VUndefined => "undefined"
  | VNull => "null"
  | VBool true => "true"
  | VBool false => "false"
  | VNum n => NilZero.string_of_int (Z.to_int n)
  | VObj _ => "[object Object]"
  end.

(** Own-property lookup; a key that is not bound reads as [undefined].
    None of the keys the interpreter reads is inherited from a prototype. *)
Fixpoint lookup (props : list (string * value)) (key : string) : value :=
  match props with
  | [] => VUndefined
  | (k, v) :: rest => if String.eqb k key then v else lookup rest key
  end.

(** [o[key]] on a value that is not [undefined] or [null]: the property of
    an object, [undefined] on a boolean or a number. *)
Definition read (o : value) (key : string) : value :=
  match o with
  | VObj props => lookup props key
  | _ => VUndefined
  end.

(** [o.key] in general: reading a property of [undefined] or [null]
    throws. *)
Definition member (o : value) (key : string) : completion value :=
  match o with
  | VUndefined | VNull => Throw
  | _ => Return (read o key)
  end.

(** [path.split('.')]. *)
Fixpoint split (sep : ascii) (s : string) : list string :=
  match s with
  | EmptyString => [EmptyString]
  | String c rest =>
      if Ascii.eqb c sep then EmptyString :: split sep rest
      else match split sep rest with
           | [] => [String c EmptyString]
           | w :: ws => String c w :: ws
           end
  end.

(** The helper [get] of the interpreter:
    [path.split('.').reduce((o, key) =>
       (o && o[key] !== undefined ? o[key] : defaultValue), obj)].
    The read [o[key]] is guarded by [o &&], so it is only made on a truthy
    [o] and cannot throw.  Note that once a step falls back to
    [defaultValue], the remaining keys are read from the default itself. *)
Definition get (obj : value) (path : string) (defaultValue : value) : value :=
  fold_left
    (fun o key =>
       if ToBoolean o && is_defined (read o key) then read o key
       else defaultValue)
    (split "." path) obj.

(* ================================================================== *)
(** ** Numbers computed by the interpreter *)
(* ================================================================== *)

(** The scores are JavaScript numbers produced by [Math.round], hence
    integral doubles, [NaN] or an infinity. *)
Inductive number : Type :=
| NaN
| Infinity (negative : bool)
| Finite (z : Z).

(** [Math.round] of a double: the nearest integer, ties toward [+oo].
    The double is read exactly, as [m * 2^e], through its IEEE 754
    decomposition. *)
Definition Math_round (x : float) : number :=
  match Prim2SF x with
  | S754_nan => NaN
  | S754_infinity s => Infinity s
  | S754_zero _ => Finite 0
  | S754_finite s m e =>
      let v := if s then Z.neg m else Z.pos m in
      if 0 <=? e then Finite (v * 2 ^ e)
      else Finite ((2 * v + 2 ^ (- e)) / (2 * 2 ^ (- e)))
  end.

(** The double of a non-negative integer (a length, a counter or a sum of
    points): exact below [2^53]. *)
Definition to_double (n : Z) : float := of_uint63 (Uint63.of_Z n).

(** [a < b], [Math.min], [Math.max] and [a - b] on such numbers. *)
Definition number_ltb (a b : number) : bool :=
  match a, b with
  | NaN, _ | _, NaN => false
  | Infinity true, Infinity true => false
  | Infinity true, _ => true
  | _, Infinity true => false
  | Infinity false, _ => false
  | _, Infinity false => true
  | Finite x, Finite y => x <? y
  end.

Definition Math_min (a b : number) : number :=
  match a, b with
  | NaN, _ | _, NaN => NaN
  | _, _ => if number_ltb b a then b else a
  end.

Definition Math_max (a b : number) : number :=
  match a, b with
  | NaN, _ | _, NaN => NaN
  | _, _ => if number_ltb a b then b else a
  end.

Definition number_sub (a b : number) : number :=
  match a, b with
  | NaN, _ | _, NaN => NaN
  | Infinity s, Infinity t => if Bool.eqb s t then NaN else Infinity s
  | Infinity s, Finite _ => Infinity s
  | Finite _, Infinity t => Infinity (negb t)
  | Finite x, Finite y => Finite (x - y)
  end.

(* ================================================================== *)
(** ** The report *)
(* ================================================================== *)

Inductive Status : Type := good | warning | critical | unknown.

Definition Status_eqb (a b : Status) : bool :=
  match a, b with
  | good, good | warning, warning | critical, critical
  | unknown, unknown => true
  | _, _ => false
  end.

(** [MetricResult]; its optional field [metric] is never set by the
    interpreter and is left out. *)
Module MetricResult.
Record t : Type := mk {
  title : string;
  status : Status;
  plainExplanation : string;
  whyItMatters : string;
  action : string
}.
End MetricResult.
Import MetricResult.

Module SeoSection.
Record t : Type := mk {
  name : string;
  metrics : list MetricResult.t
}.
End SeoSection.
Import SeoSection.

(** The priority of a category: ["good" | "warning" | "critical"]. *)
Module Priority.
Inductive t : Type := good | warning | critical.
End Priority.

Module SeoBreakdownCategory.
Record t : Type := mk {
  score : number;
  label : string;
  description : string;
  passed : nat;
  total : nat;
  priority : Priority.t
}.
End SeoBreakdownCategory.

Module SeoBreakdown.
Record summary_t : Type := mk_summary {
  weakestArea : string;
  strongestArea : string;
  recommendedFocus : string
}.
Record t : Type := mk {
  onPage : SeoBreakdownCategory.t;
  technical : SeoBreakdownCategory.t;
  authority : SeoBreakdownCategory.t;
  summary : summary_t
}.
End SeoBreakdown.

Module SeoReport.
Record summary_t : Type := mk_summary {
  actions : list string
}.
Record t : Type := mk {
  sections : list SeoSection.t;
  summary : summary_t;
  score : number;
  seoBreakdown : SeoBreakdown.t
}.
End SeoReport.

(** [array.push(x)]. *)
Definition push {A : Type} (array : list A) (x : A) : list A := array ++ [x].

(** [array[i].field]: reading a field of an element that is not there
    throws. *)
Definition element {A : Type} (array : list A) (i : nat) : completion A :=
  match nth_error array i with
  | Some a => Return a
  | None => Throw
  end.

(** [Array.prototype.sort(compare)]: the sort is stable, and an element
    moves behind another one exactly when [compare] is positive on them
    (a [NaN] comparison counts as 0).  For a consistent comparison the
    outcome of a stable sort does not depend on the algorithm; this is
    insertion from the right. *)
Section Sort.
Variable A : Type.
Variable compare : A -> A -> number.

Definition after (x y : A) : bool := number_ltb (Finite 0) (compare x y).

Fixpoint insert (x : A) (sorted : list A) : list A :=
  match sorted with
  | [] => [x]
  | y :: rest => if after x y then y :: insert x rest else x :: sorted
  end.

Definition sort (array : list A) : list A := fold_right insert [] array.
End Sort.

(* ================================================================== *)
(** ** The interpreter *)
(* ================================================================== *)

(** *** 1. Search visibility *)

Definition searchVisibility (data : value) : list MetricResult.t :=
  let searchVisibility : list MetricResult.t := [] in
  (* Title Length *)
  let titleLen := get data "onpage.title.length" (VNum 0) in
  let titleExists := get data "onpage.title.exists" (VBool false) in
  let searchVisibility :=
    if negb (ToBoolean titleExists) then
      push searchVisibility {|
        title := "Page Title";
        status := critical;
        plainExplanation := "Your page doesn't have a title defined in the code.";
        whyItMatters := "Google uses this title to show your page in search results. Without it, you look invisible or broken.";
        action := "Add a clear, short title between 30 and 60 characters." |}
    else if js_gt titleLen 60 then
      push searchVisibility {|
        title := "Title Length";
        status := critical;
        plainExplanation :=
          ("Your title is too long (" ++ ToString titleLen ++ " characters).")%string;
        whyItMatters := "Google will cut off the end of long titles, making your link look messy and unprofessional to searchers.";
        action := "Shorten the title to under 60 characters." |}
    else if js_lt titleLen 30 then
      push searchVisibility {|
        title := "Title Length";
        status := warning;
        plainExplanation := "Your title is a bit too short.";
        whyItMatters := "Short titles don't give Google enough context to rank you for different search terms.";
        action := "Add a few more descriptive words or your brand name to the title." |}
    else
      push searchVisibility {|
        title := "Title Length";
        status := good;
        plainExplanation := "Your title length is perfect.";
        whyItMatters := "It will display fully on most screens, ensuring people see your full message.";
        action := "Keep it as is." |} in
  (* Meta Description *)
  let metaExists := get data "onpage.meta.exists" (VBool false) in
  let metaLen := get data "onpage.meta.length" (VNum 0) in
  let searchVisibility :=
    if negb (ToBoolean metaExists) then
      push searchVisibility {|
        title := "Search Snippet (Meta)";
        status := critical;
        plainExplanation := "There is no description for this page in the search results.";
        whyItMatters := "Google has to guess what your page is about, which often leads to less clicks from potential visitors.";
        action := "Add a compelling description of 120-160 characters." |}
    else if js_lt metaLen 100 || js_gt metaLen 160 then
      push searchVisibility {|
        title := "Search Snippet (Meta)";
        status := warning;
        plainExplanation := "The description of your page is either too short or too long.";
        whyItMatters := "If it's too long, it gets cut off. If it's too short, it's not convincing enough for users to click.";
        action := "Aim for a length between 120 and 160 characters." |}
    else
      push searchVisibility {|
        title := "Search Snippet (Meta)";
        status := good;
        plainExplanation := "Your search result description is well-balanced.";
        whyItMatters := "It helps you stand out and encourages more people to click on your link.";
        action := "No changes needed." |} in
  (* OG Title & Image (Simplified) *)
  let hasOg := get data "onpage.og.hasOg" (VBool false) in
  push searchVisibility {|
    title := "Social Media Preview";
    status := if ToBoolean hasOg then good else warning;
    plainExplanation :=
      if ToBoolean hasOg then "Social media preview signals are present."
      else "Missing specific signals for social media sharing.";
    whyItMatters := "When people share your link on Facebook or Twitter, these signals ensure it looks beautiful with an image and title.";
    action :=
      if ToBoolean hasOg then "Check if the images look good."
      else "Add 'Open Graph' tags to control how your site looks on social media." |}.

(** *** 2. Content strength

    The reads [altStats.total] and [altStats.missing] are the only places
    where the interpreter dereferences a value it did not build itself. *)

Definition contentStrength (data : value) : completion (list MetricResult.t) :=
  let contentStrength : list MetricResult.t := [] in
  (* H1 *)
  let h1Count := get data "onpage.headings.h1Count" (VNum 0) in
  let contentStrength :=
    if js_strict_eq h1Count 0 then
      push contentStrength {|
        title := "Main Headline (H1)";
        status := critical;
        plainExplanation := "Google can't quickly understand what this specific page is about because the main headline is missing.";
        whyItMatters := "The H1 is the primary signal to Google and visitors about the page's topic. Without it, your message is lost.";
        action := "Add one clear main headline (H1 tag) to the top of the page." |}
    else if js_gt h1Count 1 then
      push contentStrength {|
        title := "Main Headlines (H1)";
        status := warning;
        plainExplanation := "You have multiple main headlines on this page.";
        whyItMatters := "It's like reading a book with two different titles on the same cover; it confuses Google about your main focus.";
        action := "Keep only one main headline and turn the others into sub-headlines." |}
    else
      push contentStrength {|
        title := "Main Headline (H1)";
        status := good;
        plainExplanation := "You have a clear, single main headline.";
        whyItMatters := "Google knows exactly what the topic of this page is.";
        action := "Good job, no action needed." |} in
  (* Word Count *)
  let wc := get data "onpage.content.wordCount" (VNum 0) in
  let contentStrength :=
    if js_lt wc 300 then
      push contentStrength {|
        title := "Content Depth";
        status := critical;
        plainExplanation :=
          ("This page is very 'thin' with only " ++ ToString wc ++ " words.")%string;
        whyItMatters := "Google prefers pages that provide thorough answers. Short pages rarely rank on the first page.";
        action := "Expand your content with more helpful details, examples, or data." |}
    else if js_lt wc 600 then
      push contentStrength {|
        title := "Content Depth";
        status := warning;
        plainExplanation := "The content is okay, but it might not be enough to beat competitors.";
        whyItMatters := "The top results in Google usually have between 1000 and 2000 words.";
        action := "Consider adding more value or answering common questions people have about this topic." |}
    else
      push contentStrength {|
        title := "Content Depth";
        status := good;
        plainExplanation := "You have a solid amount of content on this page.";
        whyItMatters := "This shows Google you are covering the topic seriously.";
        action := "Ensure the content stays updated and relevant." |} in
  (* Image Alt Tags *)
  let altStats :=
    get data "onpage.images.altStats"
        (VObj [("total", VNum 0); ("missing", VNum 0)]) in
  total <- member altStats "total" ;;
  someMissing <-
    (if js_gt total 0 then
       missing <- member altStats "missing" ;; Return (js_gt missing 0)
     else Return false) ;;
  if someMissing then
    missing <- member altStats "missing" ;;
    Return (push contentStrength {|
      title := "Image accessibility";
      status := warning;
      plainExplanation :=
        (ToString missing ++ " images on your site have no text descriptions.")%string;
      whyItMatters := "Google cannot 'see' images. It uses these descriptions to understand what's in the picture and rank you in Image Search.";
      action := "Add descriptive 'alt text' to every image on your page." |})
  else
    total <- member altStats "total" ;;
    if js_gt total 0 then
      Return (push contentStrength {|
        title := "Image accessibility";
        status := good;
        plainExplanation := "All your images have text descriptions.";
        whyItMatters := "This helps blind users and gives Google more keywords to rank you for.";
        action := "Perfect. No action needed." |})
    else Return contentStrength.

(** *** 3. Technical health *)

Definition technicalHealth (data : value) : list MetricResult.t :=
  let technicalHealth : list MetricResult.t := [] in
  (* HTTPS *)
  let isHttps := get data "technical.https" (VBool false) in
  let technicalHealth :=
    push technicalHealth {|
      title := "Connection Security";
      status := if ToBoolean isHttps then good else critical;
      plainExplanation :=
        if ToBoolean isHttps then "Your connection is secure."
        else "Your website is flagged as 'Not Secure' by Google.";
      whyItMatters := "Google downranks non-secure websites and browsers show a scary warning to your visitors.";
      action :=
        if ToBoolean isHttps then "No action needed."
        else "Enable HTTPS (SSL certificate) immediately." |} in
  (* Mobile *)
  let isMobile := get data "technical.mobileFriendly" (VBool false) in
  let technicalHealth :=
    push technicalHealth {|
      title := "Mobile Friendliness";
      status := if ToBoolean isMobile then good else critical;
      plainExplanation :=
        if ToBoolean isMobile then "Your site is built for mobile users."
        else "Your site might be hard to use on a phone.";
      whyItMatters := "Over 60% of searches happen on mobile. Google uses the mobile version of your site to rank you.";
      action :=
        if ToBoolean isMobile then "No action needed."
        else "Check your 'viewport' settings and ensure text isn't too small." |} in
  (* Indexing *)
  let noIndex := get data "technical.noindex" (VBool false) in
  let technicalHealth :=
    push technicalHealth {|
      title := "Search Visibility Lock";
      status := if ToBoolean noIndex then critical else good;
      plainExplanation :=
        if ToBoolean noIndex then "Your site is currently hidden from Google."
        else "Google is allowed to show your site in results.";
      whyItMatters := "If this is 'on', you will NEVER rank in Google, no matter how good your content is.";
      action :=
        if ToBoolean noIndex then "Remove the 'noindex' tag from your code."
        else "Keep it as is." |} in
  (* Sitemap/Robots *)
  let hasSitemap := get data "technical.sitemap" (VBool false) in
  push technicalHealth {|
    title := "Google's Map (Sitemap)";
    status := if ToBoolean hasSitemap then good else warning;
    plainExplanation :=
      if ToBoolean hasSitemap then "You have a map for Google to follow."
      else "Google doesn't have an easy sitemap to find all your pages.";
    whyItMatters := "A sitemap helps Google find and crawl and index all your important pages faster.";
    action :=
      if ToBoolean hasSitemap then "No action needed."
      else "Create a sitemap.xml file and submit it to Google." |}.

(** *** 4. Trust & credibility *)

Definition trustCredibility (data : value) : list MetricResult.t :=
  let trustCredibility : list MetricResult.t := [] in
  (* Internal Links *)
  let internalCount := get data "trust.internalLinks" (VNum 0) in
  let trustCredibility :=
    push trustCredibility {|
      title := "Topic Connection";
      status := if js_gt internalCount 5 then good else warning;
      plainExplanation :=
        if js_gt internalCount 0
        then ("You have " ++ ToString internalCount ++ " internal links.")%string
        else "No links to other pages on your site found.";
      whyItMatters := "Linking to your other pages helps Google understand your expertise and spreads 'ranking power' throughout your site.";
      action :=
        if js_gt internalCount 5 then "Keep linking to relevant pages."
        else "Add links to 5-10 other relevant pages on your website." |} in
  (* Schema *)
  let hasSchema := get data "trust.hasSchema" (VBool false) in
  push trustCredibility {|
    title := "Rich Search Results";
    status := if ToBoolean hasSchema then good else warning;
    plainExplanation :=
      if ToBoolean hasSchema then "You are using special code to speak to Google."
      else "You aren't using 'Schema' code on this page.";
    whyItMatters := "This code helps you get 'rich results' like star ratings, prices, or FAQ snippets that stand out.";
    action :=
      if ToBoolean hasSchema then "Ensure the data is accurate."
      else "Add 'LD+JSON' schema markup for your business or product." |}.

(** *** 5. Growth signals *)

Definition growthSignals : list MetricResult.t :=
  let growthSignals : list MetricResult.t := [] in
  (* Referring Domains (Simulated/Unknown for now as per rules) *)
  let growthSignals :=
    push growthSignals {|
      title := "Other Sites Recommending You";
      status := unknown;
      plainExplanation := "We couldn't determine the number of websites linking to you.";
      whyItMatters := "Getting links from other sites is the #1 way to build authority and outrank big competitors.";
      action := "Register for a free service like Google Search Console to see your backlinks." |} in
  push growthSignals {|
    title := "Domain Authority";
    status := unknown;
    plainExplanation := "Domain age and history could not be verified.";
    whyItMatters := "Older, well-established sites often have an easier time ranking than brand new ones.";
    action := "Focus on creating high-quality, unique content to build your site's reputation over time." |}.

(** *** Summary logic *)

(** The metrics with status [critical], section by section and in the
    order of each section. *)
Definition criticalMetris (sections : list SeoSection.t) : list MetricResult.t :=
  fold_left
    (fun found s =>
       fold_left
         (fun found m =>
            if Status_eqb (status m) critical then push found m else found)
         (metrics s) found)
    sections [].

Definition summaryActions (sections : list SeoSection.t) : list string :=
  let actions := map action (firstn 4 (criticalMetris sections)) in
  if Nat.eqb (List.length actions) 0
  then push actions "Focus on getting more high-quality links from other websites."
  else actions.

(** *** SEO breakdown logic *)

Definition clamp (n min max : number) : number :=
  Math_max min (Math_min max n).

Definition getPriority (score : number) : Priority.t :=
  if number_ltb score (Finite 30) then Priority.critical
  else if number_ltb score (Finite 70) then Priority.warning
  else Priority.good.

Definition calculateCat (metrics : list MetricResult.t)
    (label description : string) : SeoBreakdownCategory.t :=
  let total := List.length metrics in
  let passed := List.length (filter (fun m => Status_eqb (status m) good) metrics) in
  let score :=
    if (0 <? total)%nat then
      clamp (Math_round
               (PrimFloat.mul
                  (PrimFloat.div (to_double (Z.of_nat passed))
                                 (to_double (Z.of_nat total)))
                  100%float))
            (Finite 15) (Finite 95)
    else Finite 15 in
  {| SeoBreakdownCategory.score := score;
     SeoBreakdownCategory.label := label;
     SeoBreakdownCategory.description := description;
     SeoBreakdownCategory.passed := passed;
     SeoBreakdownCategory.total := total;
     SeoBreakdownCategory.priority := getPriority score |}.

(** *** Determine weakest/strongest *)

Module Entry.
Record t : Type := mk { key : string; score : number }.
End Entry.

(** The array [categories], before it is sorted. *)
Definition categories (onPage technical authority : number) : list Entry.t :=
  [ {| Entry.key := "onPage"; Entry.score := onPage |};
    {| Entry.key := "technical"; Entry.score := technical |};
    {| Entry.key := "authority"; Entry.score := authority |} ].

(** The comparison [(a, b) => a.score - b.score]. *)
Definition byScore (a b : Entry.t) : number :=
  number_sub (Entry.score a) (Entry.score b).

Definition weakestStrongest (onPage technical authority : number)
  : completion SeoBreakdown.summary_t :=
  let categories := categories onPage technical authority in
  let categories := sort byScore categories in
  weakest <- element categories 0 ;;
  strongest <- element categories 2 ;;
  focus <- element categories 0 ;;
  Return {| SeoBreakdown.weakestArea := Entry.key weakest;
            SeoBreakdown.strongestArea := Entry.key strongest;
            SeoBreakdown.recommendedFocus := Entry.key focus |}.

(** *** Aggregate score *)

Definition calculateAggregatedScore (sections : list SeoSection.t) : number :=
  let '(total, count) :=
    fold_left
      (fun acc s =>
         fold_left
           (fun '(total, count) m =>
              let total :=
                match status m with
                | good => total + 100
                | warning => total + 50
                | critical => total + 0
                | unknown => total + 70
                end in
              (total, count + 1))
           (metrics s) acc)
      sections (0, 0) in
  Math_round (PrimFloat.div (to_double total) (to_double count)).

(** *** [interpretSeoMetrics] *)

Definition interpretSeoMetrics (data : value) : completion SeoReport.t :=
  let sections : list SeoSection.t := [] in
  let searchVisibility := searchVisibility data in
  let sections :=
    push sections {| name := "Search visibility"; metrics := searchVisibility |} in
  contentStrength <- contentStrength data ;;
  let sections :=
    push sections {| name := "Content strength"; metrics := contentStrength |} in
  let technicalHealth := technicalHealth data in
  let sections :=
    push sections {| name := "Technical health"; metrics := technicalHealth |} in
  let trustCredibility := trustCredibility data in
  let sections :=
    push sections {| name := "Trust & credibility"; metrics := trustCredibility |} in
  let sections :=
    push sections {| name := "Growth signals"; metrics := growthSignals |} in
  let actions := summaryActions sections in
  let onPage :=
    calculateCat (searchVisibility ++ contentStrength)
      "On-page SEO" "Content and keyword optimization" in
  let technical :=
    calculateCat technicalHealth
      "Technical SEO" "Speed, crawlability, and indexability" in
  let authority :=
    calculateCat (trustCredibility ++ growthSignals)
      "Authority" "Links, trust, and domain strength" in
  summary <-
    weakestStrongest (SeoBreakdownCategory.score onPage)
                     (SeoBreakdownCategory.score technical)
                     (SeoBreakdownCategory.score authority) ;;
  let seoBreakdown :=
    {| SeoBreakdown.onPage := onPage;
       SeoBreakdown.technical := technical;
       SeoBreakdown.authority := authority;
       SeoBreakdown.summary := summary |} in
  Return {| SeoReport.sections := sections;
            SeoReport.summary := {| SeoReport.actions := actions |};
            SeoReport.score := calculateAggregatedScore sections;
            SeoReport.seoBreakdown := seoBreakdown |}.

(* ================================================================== *)
(** ** Page facts *)
(* ================================================================== *)

(** The facts the extractor hands over, as a typed record: every field is
    optional ([None]: the field is absent), and a field that is present has
    the type the extractor gives it (a sub-record, a number or a boolean,
    never [null]).  Only the fields that the interpreter reads are kept:
    the texts ([title.text], [meta.text], [og.ogTitle], ...) and the other
    counters are never looked up. *)
Module Facts.
Record Title : Type := mkTitle {
  length : option Z;
  exists_ : option bool
}.
Record Headings : Type := mkHeadings { h1Count : option Z }.
Record Og : Type := mkOg { hasOg : option bool }.
Record AltStats : Type := mkAltStats {
  total : option Z;
  missing : option Z
}.
Record Images : Type := mkImages { altStats : option AltStats }.
Record Content : Type := mkContent { wordCount : option Z }.
Record OnPage : Type := mkOnPage {
  title : option Title;
  meta : option Title;
  headings : option Headings;
  og : option Og;
  images : option Images;
  content : option Content
}.
Record Technical : Type := mkTechnical {
  https : option bool;
  mobileFriendly : option bool;
  noindex : option bool;
  sitemap : option bool
}.
Record Trust : Type := mkTrust {
  internalLinks : option Z;
  hasSchema : option bool
}.
Record t : Type := mk {
  onpage : option OnPage;
  technical : option Technical;
  trust : option Trust
}.

(** The facts with no field at all. *)
Definition empty : t := mk None None None.

(** Reading a field below an optional record. *)
Definition sub {A B : Type} (o : option A) (field : A -> option B) : option B :=
  match o with
  | Some a => field a
  | None => None
  end.

Definition or_else {A : Type} (o : option A) (default : A) : A :=
  match o with
  | Some a => a
  | None => default
  end.

(** The facts as the rules see them once absent fields are defaulted
    (0 for a counter, [false] for a flag). *)
Definition titleExists (f : t) : bool :=
  or_else (sub (sub (onpage f) title) exists_) false.
Definition titleLen (f : t) : Z :=
  or_else (sub (sub (onpage f) title) length) 0.
Definition metaExists (f : t) : bool :=
  or_else (sub (sub (onpage f) meta) exists_) false.
Definition metaLen (f : t) : Z :=
  or_else (sub (sub (onpage f) meta) length) 0.
Definition ogPresent (f : t) : bool :=
  or_else (sub (sub (onpage f) og) hasOg) false.
Definition h1 (f : t) : Z :=
  or_else (sub (sub (onpage f) headings) h1Count) 0.
Definition words (f : t) : Z :=
  or_else (sub (sub (onpage f) content) wordCount) 0.
Definition imagesTotal (f : t) : Z :=
  or_else (sub (sub (sub (onpage f) images) altStats) total) 0.
Definition imagesMissing (f : t) : Z :=
  or_else (sub (sub (sub (onpage f) images) altStats) missing) 0.
Definition isHttps (f : t) : bool :=
  or_else (sub (technical f) https) false.
Definition isMobile (f : t) : bool :=
  or_else (sub (technical f) mobileFriendly) false.
Definition noIndex (f : t) : bool :=
  or_else (sub (technical f) noindex) false.
Definition hasSitemap (f : t) : bool :=
  or_else (sub (technical f) sitemap) false.
Definition internalCount (f : t) : Z :=
  or_else (sub (trust f) internalLinks) 0.
Definition schema (f : t) : bool :=
  or_else (sub (trust f) hasSchema) false.
End Facts.

(** The JavaScript object a fact record is: an object with a property for
    each field that is present, and none for a field that is absent. *)
Definition property {A : Type} (key : string) (enc : A -> value)
    (o : option A) : list (string * value) :=
  match o with
  | Some a => [(key, enc a)]
  | None => []
  end.

Definition titleValue (x : Facts.Title) : value :=
  VObj (property "length" VNum (Facts.length x)
        ++ property "exists" VBool (Facts.exists_ x)).

Definition headingsValue (x : Facts.Headings) : value :=
  VObj (property "h1Count" VNum (Facts.h1Count x)).

Definition ogValue (x : Facts.Og) : value :=
  VObj (property "hasOg" VBool (Facts.hasOg x)).

Definition altStatsValue (x : Facts.AltStats) : value :=
  VObj (property "total" VNum (Facts.total x)
        ++ property "missing" VNum (Facts.missing x)).

Definition imagesValue (x : Facts.Images) : value :=
  VObj (property "altStats" altStatsValue (Facts.altStats x)).

Definition contentValue (x : Facts.Content) : value :=
  VObj (property "wordCount" VNum (Facts.wordCount x)).

Definition onpageValue (x : Facts.OnPage) : value :=
  VObj (property "title" titleValue (Facts.title x)
        ++ property "meta" titleValue (Facts.meta x)
        ++ property "headings" headingsValue (Facts.headings x)
        ++ property "og" ogValue (Facts.og x)
        ++ property "images" imagesValue (Facts.images x)
        ++ property "content" contentValue (Facts.content x)).

Definition technicalValue (x : Facts.Technical) : value :=
  VObj (property "https" VBool (Facts.https x)
        ++ property "mobileFriendly" VBool (Facts.mobileFriendly x)
        ++ property "noindex" VBool (Facts.noindex x)
        ++ property "sitemap" VBool (Facts.sitemap x)).

Definition trustValue (x : Facts.Trust) : value :=
  VObj (property "internalLinks" VNum (Facts.internalLinks x)
        ++ property "hasSchema" VBool (Facts.hasSchema x)).

Definition toValue (f : Facts.t) : value :=
  VObj (property "onpage" onpageValue (Facts.onpage f)
        ++ property "technical" technicalValue (Facts.technical f)
        ++ property "trust" trustValue (Facts.trust f)).

(** [interpret(facts)]. *)
Definition interpret (f : Facts.t) : completion SeoReport.t :=
  interpretSeoMetrics (toValue f).

(* ================================================================== *)
(** ** Vocabulary of the properties *)
(* ================================================================== *)

(** All the metrics of a report, section by section. *)
Definition allMetrics (sections : list SeoSection.t) : list MetricResult.t :=
  flat_map metrics sections.

(** [m.status === 'critical'] and [m.status === 'good']. *)
Definition isCritical (m : MetricResult.t) : bool := Status_eqb (status m) critical.

Definition isGood (m : MetricResult.t) : bool := Status_eqb (status m) good.

(** The point value of a status, in the words of the specification. *)
Definition points (s : Status) : Z :=
  match s with
  | good => 100
  | warning => 50
  | critical => 0
  | unknown => 70
  end.

(** The points of a list of metrics, summed. *)
Definition sumPoints (ms : list MetricResult.t) : Z :=
  fold_right (fun m acc => points (status m) + acc) 0 ms.

(** [n] is the quotient [num / den] rounded to the nearest integer, a tie
    going up: [n - 1/2 <= num/den < n + 1/2]. *)
Definition rounds_to (num den n : Z) : Prop :=
  2 * den * n - den <= 2 * num < 2 * den * n + den.

(** The same, as a test. *)
Definition rounds_tob (num den n : Z) : bool :=
  (2 * den * n - den <=? 2 * num) && (2 * num <? 2 * den * n + den).

(** [Math.round((passed / total) * 100)] as the interpreter computes it, in
    doubles. *)
Definition percentage (passed total : nat) : number :=
  Math_round
    (PrimFloat.mul
       (PrimFloat.div (to_double (Z.of_nat passed)) (to_double (Z.of_nat total)))
       100%float).

(** [Math.round(total / count)]. *)
Definition average (total count : Z) : number :=
  Math_round (PrimFloat.div (to_double total) (to_double count)).

(** [x] is an integer, and the quotient [num / den] rounded. *)
Definition exactly (x : number) (num den : Z) : bool :=
  match x with
  | Finite n => rounds_tob num den n
  | _ => false
  end.

(** The priority of a score, in the words of the specification. *)
Definition priorityOf (score : Z) : Priority.t :=
  if score <? 30 then Priority.critical
  else if score <? 70 then Priority.warning
  else Priority.good.

(** The first of the areas with the lowest score, in the order onPage,
    technical, authority. *)
Definition firstLowest (a b c : Z) : string :=
  if (a <=? b) && (a <=? c) then "onPage"
  else if b <=? c then "technical"
  else "authority".

(** The last of the areas with the highest score, in the same order. *)
Definition lastHighest (a b c : Z) : string :=
  if (a <=? c) && (b <=? c) then "authority"
  else if a <=? b then "technical"
  else "onPage".

(** The rules of the sections, in the words of the specification. *)
Module Rules.
(** Title: missing -> critical; else length > 60 -> critical; else
    length < 30 -> warning; else good. *)
Definition title (exists_ : bool) (length : Z) : Status :=
  if negb exists_ then critical
  else if 60 <? length then critical
  else if length <? 30 then warning
  else good.

(** Meta description: missing -> critical; else length < 100 or > 160 ->
    warning; else good. *)
Definition meta (exists_ : bool) (length : Z) : Status :=
  if negb exists_ then critical
  else if (length <? 100) || (160 <? length) then warning
  else good.

(** A binary rule: good when the flag holds, [bad] otherwise. *)
Definition flag (b : bool) (bad : Status) : Status :=
  if b then good else bad.

(** Main headline: no H1 -> critical; more than one -> warning. *)
Definition headline (h1Count : Z) : Status :=
  if h1Count =? 0 then critical
  else if 1 <? h1Count then warning
  else good.

(** Content depth: fewer than 300 words -> critical; fewer than 600 ->
    warning. *)
Definition depth (wordCount : Z) : Status :=
  if wordCount <? 300 then critical
  else if wordCount <? 600 then warning
  else good.

(** Image accessibility: emitted only if there are images; warning when
    some alt text is missing. *)
Definition images (total missing : Z) : list Status :=
  if 0 <? total then [if 0 <? missing then warning else good] else [].
End Rules.

(** The five sections of a report, given the metrics of the first four. *)
Definition fiveSections (sv cs th tc : list MetricResult.t) : list SeoSection.t :=
  [ {| name := "Search visibility"; metrics := sv |};
    {| name := "Content strength"; metrics := cs |};
    {| name := "Technical health"; metrics := th |};
    {| name := "Trust & credibility"; metrics := tc |};
    {| name := "Growth signals"; metrics := growthSignals |} ].

(** The report assembled from the metrics of the sections and the summary
    of the breakdown. *)
Definition reportOf (sv cs th tc : list MetricResult.t)
    (summary : SeoBreakdown.summary_t) : SeoReport.t :=
  {| SeoReport.sections := fiveSections sv cs th tc;
     SeoReport.summary :=
       {| SeoReport.actions := summaryActions (fiveSections sv cs th tc) |};
     SeoReport.score := calculateAggregatedScore (fiveSections sv cs th tc);
     SeoReport.seoBreakdown :=
       {| SeoBreakdown.onPage :=
            calculateCat (sv ++ cs)
              "On-page SEO" "Content and keyword optimization";
          SeoBreakdown.technical :=
            calculateCat th
              "Technical SEO" "Speed, crawlability, and indexability";
          SeoBreakdown.authority :=
            calculateCat (tc ++ growthSignals)
              "Authority" "Links, trust, and domain strength";
          SeoBreakdown.summary := summary |} |}.

(** The metrics of a section of a report, by the name of the section. *)
Definition sectionMetrics (r : SeoReport.t) (section : string)
  : list MetricResult.t :=
  match find (fun s => String.eqb (name s) section) (SeoReport.sections r) with
  | Some s => metrics s
  | None => []
  end.

(** What every report of a fact record looks like. *)
Record Shape (f : Facts.t) (r : SeoReport.t)
    (sv cs th tc : list MetricResult.t) : Prop := {
  shape_report :
    exists summary,
      weakestStrongest
        (SeoBreakdownCategory.score (SeoBreakdown.onPage (SeoReport.seoBreakdown r)))
        (SeoBreakdownCategory.score (SeoBreakdown.technical (SeoReport.seoBreakdown r)))
        (SeoBreakdownCategory.score (SeoBreakdown.authority (SeoReport.seoBreakdown r)))
      = Return summary
      /\ r = reportOf sv cs th tc summary;
  shape_sv :
    map status sv
    = [ Rules.title (Facts.titleExists f) (Facts.titleLen f);
        Rules.meta (Facts.metaExists f) (Facts.metaLen f);
        Rules.flag (Facts.ogPresent f) warning ];
  shape_cs :
    map status cs
    = [Rules.headline (Facts.h1 f); Rules.depth (Facts.words f)]
      ++ Rules.images (Facts.imagesTotal f) (Facts.imagesMissing f);
  shape_images :
    map status (filter (fun m => String.eqb (title m) "Image accessibility") cs)
    = Rules.images (Facts.imagesTotal f) (Facts.imagesMissing f);
  shape_th :
    map status th
    = [ Rules.flag (Facts.isHttps f) critical;
        Rules.flag (Facts.isMobile f) critical;
        Rules.flag (negb (Facts.noIndex f)) critical;
        Rules.flag (Facts.hasSitemap f) warning ];
  shape_tc :
    map status tc
    = [ Rules.flag (5 <? Facts.internalCount f) warning;
        Rules.flag (Facts.schema f) warning ]
}.

(** The names of the five sections, in the order of the report. *)
Definition sectionNames : list string :=
  [ "Search visibility"; "Content strength"; "Technical health";
    "Trust & credibility"; "Growth signals" ].

(** A category [c] is scored from the metrics [ms]: its total is their
    number, [passed] counts the good ones, its score is
    [passed / total * 100] rounded to the nearest integer and clamped to
    [15, 95], and its priority follows the score. *)
Definition scoredFrom (c : SeoBreakdownCategory.t) (ms : list MetricResult.t)
  : Prop :=
  SeoBreakdownCategory.total c = List.length ms
  /\ SeoBreakdownCategory.passed c = List.length (filter isGood ms)
  /\ exists n,
       rounds_to (100 * Z.of_nat (SeoBreakdownCategory.passed c))
                 (Z.of_nat (SeoBreakdownCategory.total c)) n
       /\ SeoBreakdownCategory.score c = Finite (Z.max 15 (Z.min 95 n))
       /\ SeoBreakdownCategory.priority c = priorityOf (Z.max 15 (Z.min 95 n)).

(** A page on which every rule passes. *)
Definition healthyPage : Facts.t :=
  Facts.mk
    (Some (Facts.mkOnPage
             (Some (Facts.mkTitle (Some 45) (Some true)))
             (Some (Facts.mkTitle (Some 140) (Some true)))
             (Some (Facts.mkHeadings (Some 1)))
             (Some (Facts.mkOg (Some true)))
             (Some (Facts.mkImages (Some (Facts.mkAltStats (Some 10) (Some 0)))))
             (Some (Facts.mkContent (Some 900)))))
    (Some (Facts.mkTechnical (Some true) (Some true) (Some false) (Some true)))
    (Some (Facts.mkTrust (Some 12) (Some true))).

(** The status of the title metric: the first metric of the search
    section. *)
Definition titleStatus (r : SeoReport.t) : option Status :=
  option_map status (hd_error (sectionMetrics r "Search visibility")).

(** A page of which only the title is known. *)
Definition titled (exists_ : bool) (length : Z) : Facts.t :=
  Facts.mk
    (Some (Facts.mkOnPage (Some (Facts.mkTitle (Some length) (Some exists_)))
             None None None None None))
    None None.

(** The image entries of a report: the metrics of the content section
    titled "Image accessibility". *)
Definition imageEntries (r : SeoReport.t) : list MetricResult.t :=
  filter (fun m => String.eqb (title m) "Image accessibility")
         (sectionMetrics r "Content strength").

(** A page of which only the image statistics are known. *)
Definition pictured (total missing : Z) : Facts.t :=
  Facts.mk
    (Some (Facts.mkOnPage None None None None
             (Some (Facts.mkImages
                      (Some (Facts.mkAltStats (Some total) (Some missing)))))
             None))
    None None.

(** The area with the lowest of the three scores; among equal lowest
    scores the first in the order onPage, technical, authority, as a
    stable ascending sort leaves it in front. *)
Inductive Lowest (onPage technical authority : Z) : string -> Prop :=
| lowest_onPage :
    onPage <= technical -> onPage <= authority ->
    Lowest onPage technical authority "onPage"
| lowest_technical :
    technical < onPage -> technical <= authority ->
    Lowest onPage technical authority "technical"
| lowest_authority :
    authority < onPage -> authority < technical ->
    Lowest onPage technical authority "authority".

(** The area with the highest of the three scores; among equal highest
    scores the last in the order onPage, technical, authority, as a stable
    ascending sort leaves it at the end. *)
Inductive Highest (onPage technical authority : Z) : string -> Prop :=
| highest_authority :
    onPage <= authority -> technical <= authority ->
    Highest onPage technical authority "authority"
| highest_technical :
    onPage <= technical -> authority < technical ->
    Highest onPage technical authority "technical"
| highest_onPage :
    technical < onPage -> authority < onPage ->
    Highest onPage technical authority "onPage".

(** The fact record with every absent field filled in with its default:
    0 for a counter or a length, [false] for a flag. *)
Definition withDefaults (f : Facts.t) : Facts.t :=
  Facts.mk
    (Some (Facts.mkOnPage
             (Some (Facts.mkTitle (Some (Facts.titleLen f))
                                  (Some (Facts.titleExists f))))
             (Some (Facts.mkTitle (Some (Facts.metaLen f))
                                  (Some (Facts.metaExists f))))
             (Some (Facts.mkHeadings (Some (Facts.h1 f))))
             (Some (Facts.mkOg (Some (Facts.ogPresent f))))
             (Some (Facts.mkImages
                      (Some (Facts.mkAltStats (Some (Facts.imagesTotal f))
                                              (Some (Facts.imagesMissing f))))))
             (Some (Facts.mkContent (Some (Facts.words f))))))
    (Some (Facts.mkTechnical (Some (Facts.isHttps f)) (Some (Facts.isMobile f))
                             (Some (Facts.noIndex f)) (Some (Facts.hasSitemap f))))
    (Some (Facts.mkTrust (Some (Facts.internalCount f)) (Some (Facts.schema f)))).

(** The keys of the three categories. *)
Definition isArea (s : string) : Prop :=
  s = "onPage" \/ s = "technical" \/ s = "authority".

(** A number that is neither [NaN] nor infinite. *)
Definition isInteger (x : number) : Prop := exists n, x = Finite n.

(** A well-formed report: the five sections in order, one to four
    actions, an aggregate score and three category scores that are
    integers, no category without metrics, and areas among the three
    category keys. *)
Record WellFormed (r : SeoReport.t) : Prop := {
  wf_sections : map name (SeoReport.sections r) = sectionNames;
  wf_actions :
    (1 <= List.length (SeoReport.actions (SeoReport.summary r)) <= 4)%nat;
  wf_score : isInteger (SeoReport.score r);
  wf_categories :
    Forall (fun c => isInteger (SeoBreakdownCategory.score c)
                     /\ (0 < SeoBreakdownCategory.total c)%nat)
      [ SeoBreakdown.onPage (SeoReport.seoBreakdown r);
        SeoBreakdown.technical (SeoReport.seoBreakdown r);
        SeoBreakdown.authority (SeoReport.seoBreakdown r) ];
  wf_areas :
    Forall isArea
      [ SeoBreakdown.weakestArea (SeoBreakdown.summary (SeoReport.seoBreakdown r));
        SeoBreakdown.strongestArea (SeoBreakdown.summary (SeoReport.seoBreakdown r));
        SeoBreakdown.recommendedFocus (SeoBreakdown.summary (SeoReport.seoBreakdown r)) ]
}.

(* ================================================================== *)
(** ** Vocabulary of the further properties *)
(* ================================================================== *)

(** A plain object, as opposed to [undefined], [null], a boolean or a
    number. *)
Definition is_object (v : value) : bool :=
  match v with
  | VObj _ => true
  | _ => false
  end.


(** A key without a dot: [split] leaves it whole. *)
Fixpoint dotfree (s : string) : bool :=
  match s with
  | EmptyString => true
  | String c rest => negb (Ascii.eqb c ".") && dotfree rest
  end.

(** The facts with HTTPS turned on, everything else as it is. *)
Definition secured (f : Facts.t) : Facts.t :=
  Facts.mk (Facts.onpage f)
    (Some (Facts.mkTechnical (Some true)
             (Facts.sub (Facts.technical f) Facts.mobileFriendly)
             (Facts.sub (Facts.technical f) Facts.noindex)
             (Facts.sub (Facts.technical f) Facts.sitemap)))
    (Facts.trust f).

(** One list of metrics is at least as healthy as another: metric by
    metric, the status is worth at least as many points. *)
Definition noWorse (before after : list MetricResult.t) : Prop :=
  Forall2 (fun m m' => points (status m) <= points (status m')) before after.

(* ================================================================== *)
(** ** The analysis route and the page *)
(* ================================================================== *)

(** What the route measures on a document and its site: the lengths of
    the title and of the meta description, the numbers of headings, images
    and words, and the flags.  The queries that measure them are not
    modelled; the records below are built from their results as the route
    builds them. *)
Module Page.
Record t : Type := mk {
  titleLength : nat;
  metaLength : nat;
  h1Count : nat;
  h2Count : nat;
  h3Count : nat;
  hasOg : bool;
  totalImgs : nat;
  missingAlt : nat;
  wordCount : nat;
  isHttps : bool;
  hasViewport : bool;
  isNoIndex : bool;
  hasSitemap : bool;
  internal : nat;
  hasSchema : bool
}.
End Page.

(** The record [analyzeOnPage] returns.  The texts ([title.text],
    [meta.text], [og.ogTitle], [og.ogImage]) are left out; [!!titleText]
    holds of a string exactly when its length is not 0. *)
Definition analyzeOnPage (p : Page.t) : value :=
  VObj [ ("title",
           VObj [ ("length", VNum (Z.of_nat (Page.titleLength p)));
                  ("exists", VBool (negb (Nat.eqb (Page.titleLength p) 0))) ]);
         ("meta",
           VObj [ ("length", VNum (Z.of_nat (Page.metaLength p)));
                  ("exists", VBool (negb (Nat.eqb (Page.metaLength p) 0))) ]);
         ("headings",
           VObj [ ("h1Count", VNum (Z.of_nat (Page.h1Count p)));
                  ("h2Count", VNum (Z.of_nat (Page.h2Count p)));
                  ("h3Count", VNum (Z.of_nat (Page.h3Count p)));
                  ("h1Exists", VBool (0 <? Page.h1Count p)%nat);
                  ("h1Unique", VBool (Nat.eqb (Page.h1Count p) 1)) ]);
         ("og", VObj [ ("hasOg", VBool (Page.hasOg p)) ]);
         ("images",
           VObj [ ("altStats",
                    VObj [ ("total", VNum (Z.of_nat (Page.totalImgs p)));
                           ("missing", VNum (Z.of_nat (Page.missingAlt p))) ]) ]);
         ("content", VObj [ ("wordCount", VNum (Z.of_nat (Page.wordCount p))) ]) ].

(** The record [analyzeTechnical] returns, without [doctype] and
    [charset]. *)
Definition analyzeTechnical (p : Page.t) : value :=
  VObj [ ("https", VBool (Page.isHttps p));
         ("mobileFriendly", VBool (Page.hasViewport p));
         ("noindex", VBool (Page.isNoIndex p));
         ("sitemap", VBool (Page.hasSitemap p)) ].

(** The record [analyzeTrust] returns. *)
Definition analyzeTrust (p : Page.t) : value :=
  VObj [ ("internalLinks", VNum (Z.of_nat (Page.internal p)));
         ("hasSchema", VBool (Page.hasSchema p)) ].

(** The object [{ onpage, technical, trust }] that the route hands to the
    interpreter; the response it sends to the page has the same three
    fields. *)
Definition analysis (p : Page.t) : value :=
  VObj [ ("onpage", analyzeOnPage p);
         ("technical", analyzeTechnical p);
         ("trust", analyzeTrust p) ].

(** The same as a fact record, every field present. *)
Definition pageFacts (p : Page.t) : Facts.t :=
  Facts.mk
    (Some (Facts.mkOnPage
             (Some (Facts.mkTitle (Some (Z.of_nat (Page.titleLength p)))
                      (Some (negb (Nat.eqb (Page.titleLength p) 0)))))
             (Some (Facts.mkTitle (Some (Z.of_nat (Page.metaLength p)))
                      (Some (negb (Nat.eqb (Page.metaLength p) 0)))))
             (Some (Facts.mkHeadings (Some (Z.of_nat (Page.h1Count p)))))
             (Some (Facts.mkOg (Some (Page.hasOg p))))
             (Some (Facts.mkImages
                      (Some (Facts.mkAltStats
                               (Some (Z.of_nat (Page.totalImgs p)))
                               (Some (Z.of_nat (Page.missingAlt p)))))))
             (Some (Facts.mkContent (Some (Z.of_nat (Page.wordCount p)))))))
    (Some (Facts.mkTechnical (Some (Page.isHttps p)) (Some (Page.hasViewport p))
             (Some (Page.isNoIndex p)) (Some (Page.hasSitemap p))))
    (Some (Facts.mkTrust (Some (Z.of_nat (Page.internal p)))
             (Some (Page.hasSchema p)))).

(** [v >= k] and [v <= k] against a numeric literal. *)
Definition js_ge (v : value) (k : Z) : bool :=
  match ToNumber v with
  | Some n => k <=? n
  | None => false
  end.

Definition js_le (v : value) (k : Z) : bool :=
  match ToNumber v with
  | Some n => n <=? k
  | None => false
  end.

(** [data.a.b] and [data.a.b.c]: each read throws on [undefined] and
    [null]. *)
Definition dot2 (data : value) (a b : string) : completion value :=
  o <- member data a ;; member o b.

Definition dot3 (data : value) (a b c : string) : completion value :=
  o <- dot2 data a b ;; member o c.

(** [calculateScore] of the page: 100 minus a penalty per issue, and
    [Math.max(0, score)]. *)
Definition calculateScore (data : value) : completion Z :=
  let score := 100 in
  titleExists <- dot3 data "onpage" "title" "exists" ;;
  score <-
    (if negb (ToBoolean titleExists) then Return (score - 20)
     else
       length <- dot3 data "onpage" "title" "length" ;;
       if js_lt length 30 then Return (score - 5)
       else
         length <- dot3 data "onpage" "title" "length" ;;
         if js_gt length 60 then Return (score - 5) else Return score) ;;
  metaExists <- dot3 data "onpage" "meta" "exists" ;;
  let score := if negb (ToBoolean metaExists) then score - 15 else score in
  h1Exists <- dot3 data "onpage" "headings" "h1Exists" ;;
  let score := if negb (ToBoolean h1Exists) then score - 15 else score in
  h1Unique <- dot3 data "onpage" "headings" "h1Unique" ;;
  let score := if negb (ToBoolean h1Unique) then score - 5 else score in
  wordCount <- dot3 data "onpage" "content" "wordCount" ;;
  let score := if js_lt wordCount 300 then score - 10 else score in
  https <- dot2 data "technical" "https" ;;
  let score := if negb (ToBoolean https) then score - 10 else score in
  noindex <- dot2 data "technical" "noindex" ;;
  let score := if ToBoolean noindex then score - 20 else score in
  Return (Z.max 0 score).

(** The object [mapMetrics] returns. *)
Module Metrics.
Record t : Type := mk {
  title : string;
  isTitleGood : value;
  desc : string;
  isDescGood : value;
  headings : string;
  isHeadingsGood : value;
  wc : value;
  mob : string;
  isMobGood : value
}.
End Metrics.

(** [mapMetrics] of the page.  [a && b] is [a] when [a] is falsy and [b]
    otherwise. *)
Definition mapMetrics (data : value) : completion Metrics.t :=
  titleExists <- dot3 data "onpage" "title" "exists" ;;
  title <-
    (if ToBoolean titleExists then
       length <- dot3 data "onpage" "title" "length" ;;
       Return (ToString length ++ " chars")%string
     else Return "Missing") ;;
  titleExists <- dot3 data "onpage" "title" "exists" ;;
  isTitleGood <-
    (if ToBoolean titleExists then
       length <- dot3 data "onpage" "title" "length" ;;
       if js_ge length 30 then
         length <- dot3 data "onpage" "title" "length" ;;
         Return (VBool (js_le length 60))
       else Return (VBool false)
     else Return titleExists) ;;
  metaExists <- dot3 data "onpage" "meta" "exists" ;;
  let desc := if ToBoolean metaExists then "Optimized" else "Missing" in
  isDescGood <- dot3 data "onpage" "meta" "exists" ;;
  h1Exists <- dot3 data "onpage" "headings" "h1Exists" ;;
  headings <-
    (if ToBoolean h1Exists then
       h1Unique <- dot3 data "onpage" "headings" "h1Unique" ;;
       Return (if ToBoolean h1Unique then "Well Structured" else "Multiple H1s")
     else Return "Missing H1") ;;
  h1Exists <- dot3 data "onpage" "headings" "h1Exists" ;;
  isHeadingsGood <-
    (if ToBoolean h1Exists then dot3 data "onpage" "headings" "h1Unique"
     else Return h1Exists) ;;
  wc <- dot3 data "onpage" "content" "wordCount" ;;
  https <- dot2 data "technical" "https" ;;
  let mob := if ToBoolean https then "Secure (HTTPS)" else "Not Secure" in
  isMobGood <- dot2 data "technical" "https" ;;
  Return {| Metrics.title := title;
            Metrics.isTitleGood := isTitleGood;
            Metrics.desc := desc;
            Metrics.isDescGood := isDescGood;
            Metrics.headings := headings;
            Metrics.isHeadingsGood := isHeadingsGood;
            Metrics.wc := wc;
            Metrics.mob := mob;
            Metrics.isMobGood := isMobGood |}.

(** The warnings the earlier version of the route generates from the two
    records it analysed. *)
Definition generatedWarnings (onpage technical : value)
  : completion (list string) :=
  let warnings : list string := [] in
  titleExists <- dot2 onpage "title" "exists" ;;
  let warnings :=
    if negb (ToBoolean titleExists) then push warnings "Missing Title tag"
    else warnings in
  titleExists <- dot2 onpage "title" "exists" ;;
  badLength <-
    (if ToBoolean titleExists then
       length <- dot2 onpage "title" "length" ;;
       if js_lt length 30 then Return true
       else length <- dot2 onpage "title" "length" ;; Return (js_gt length 60)
     else Return false) ;;
  let warnings :=
    if badLength
    then push warnings "Title length should be between 30-60 characters"
    else warnings in
  metaExists <- dot2 onpage "meta" "exists" ;;
  let warnings :=
    if negb (ToBoolean metaExists) then push warnings "Missing Meta Description"
    else warnings in
  h1Exists <- dot2 onpage "headings" "h1Exists" ;;
  let warnings :=
    if negb (ToBoolean h1Exists) then push warnings "Missing H1 tag"
    else warnings in
  h1Unique <- dot2 onpage "headings" "h1Unique" ;;
  let warnings :=
    if negb (ToBoolean h1Unique) then push warnings "Multiple H1 tags found"
    else warnings in
  wordCount <- dot2 onpage "content" "wordCount" ;;
  let warnings :=
    if js_lt wordCount 300
    then push warnings "Low word count (less than 300 words)"
    else warnings in
  https <- member technical "https" ;;
  let warnings :=
    if negb (ToBoolean https) then push warnings "Site is not using HTTPS"
    else warnings in
  noindex <- member technical "noindex" ;;
  let warnings :=
    if ToBoolean noindex
    then push warnings "Page is blocked from indexing (noindex)"
    else warnings in
  Return warnings.

(** The points [calculateScore] takes off for the issue a warning names. *)
Definition penalty (warning : string) : Z :=
  if String.eqb warning "Missing Title tag" then 20
  else if String.eqb warning "Title length should be between 30-60 characters" then 5
  else if String.eqb warning "Missing Meta Description" then 15
  else if String.eqb warning "Missing H1 tag" then 15
  else if String.eqb warning "Multiple H1 tags found" then 5
  else if String.eqb warning "Low word count (less than 300 words)" then 10
  else if String.eqb warning "Site is not using HTTPS" then 10
  else if String.eqb warning "Page is blocked from indexing (noindex)" then 20
  else 0.

(** [s.replace(/^prefix/, '')] for a literal prefix: the string without
    the prefix when it starts with it. *)
Fixpoint dropPrefix (prefix s : string) : option string :=
  match prefix, s with
  | EmptyString, _ => Some s
  | String a prefix', String b s' =>
      if Ascii.eqb a b then dropPrefix prefix' s' else None
  | String _ _, EmptyString => None
  end.

(** [formatUrl] of the static page:
    [url.replace(/^https?:\/\//, '').replace(/^www\./, '')].  The first
    pattern matches at the start either ["https://"] or ["http://"]. *)
Definition formatUrl (url : string) : string :=
  let url :=
    match dropPrefix "https://" url with
    | Some rest => rest
    | None =>
        match dropPrefix "http://" url with
        | Some rest => rest
        | None => url
        end
    end in
  match dropPrefix "www." url with
  | Some rest => rest
  | None => url
  end.

(* ================================================================== *)
(** ** What [get] reads from a fact record *)
(* ================================================================== *)

(** On the object of a fact record, each path of the interpreter yields the
    field when it is present and the default otherwise. *)
Section GetOnFacts.
Variable f : Facts.t.

(** Case analysis on the fields of the page, of the technical and of the
    trust facts, down to the field a path ends in. *)
Ltac onpage_cases :=
  destruct f as [[[[title|] [meta|] [headings|] [og|] [images|] [content|]]|]
                 [technical|] [trust|]].
Ltac technical_cases :=
  destruct f as [[onpage|] [[[https|] [mobile|] [noindex|] [sitemap|]]|]
                 [trust|]].
Ltac trust_cases :=
  destruct f as [[onpage|] [technical|] [[[links|] [schema|]]|]].

Lemma get_titleLen :
  get (toValue f) "onpage.title.length" (VNum 0) = VNum (Facts.titleLen f).
Proof. onpage_cases; try destruct title as [[?|] [?|]]; reflexivity. Qed.

Lemma get_titleExists :
  get (toValue f) "onpage.title.exists" (VBool false)
  = VBool (Facts.titleExists f).
Proof. onpage_cases; try destruct title as [[?|] [?|]]; reflexivity. Qed.

Lemma get_metaLen :
  get (toValue f) "onpage.meta.length" (VNum 0) = VNum (Facts.metaLen f).
Proof. onpage_cases; try destruct meta as [[?|] [?|]]; reflexivity. Qed.

Lemma get_metaExists :
  get (toValue f) "onpage.meta.exists" (VBool false)
  = VBool (Facts.metaExists f).
Proof. onpage_cases; try destruct meta as [[?|] [?|]]; reflexivity. Qed.

Lemma get_hasOg :
  get (toValue f) "onpage.og.hasOg" (VBool false) = VBool (Facts.ogPresent f).
Proof. onpage_cases; try destruct og as [[?|]]; reflexivity. Qed.

Lemma get_h1Count :
  get (toValue f) "onpage.headings.h1Count" (VNum 0) = VNum (Facts.h1 f).
Proof. onpage_cases; try destruct headings as [[?|]]; reflexivity. Qed.

Lemma get_wordCount :
  get (toValue f) "onpage.content.wordCount" (VNum 0) = VNum (Facts.words f).
Proof. onpage_cases; try destruct content as [[?|]]; reflexivity. Qed.

Lemma get_altStats :
  get (toValue f) "onpage.images.altStats"
      (VObj [("total", VNum 0); ("missing", VNum 0)])
  = match Facts.sub (Facts.sub (Facts.onpage f) Facts.images) Facts.altStats with
    | Some a => altStatsValue a
    | None => VObj [("total", VNum 0); ("missing", VNum 0)]
    end.
Proof. onpage_cases; try destruct images as [[?|]]; reflexivity. Qed.

Lemma get_https :
  get (toValue f) "technical.https" (VBool false) = VBool (Facts.isHttps f).
Proof. technical_cases; reflexivity. Qed.

Lemma get_mobileFriendly :
  get (toValue f) "technical.mobileFriendly" (VBool false)
  = VBool (Facts.isMobile f).
Proof. technical_cases; reflexivity. Qed.

Lemma get_noindex :
  get (toValue f) "technical.noindex" (VBool false) = VBool (Facts.noIndex f).
Proof. technical_cases; reflexivity. Qed.

Lemma get_sitemap :
  get (toValue f) "technical.sitemap" (VBool false)
  = VBool (Facts.hasSitemap f).
Proof. technical_cases; reflexivity. Qed.

Lemma get_internalLinks :
  get (toValue f) "trust.internalLinks" (VNum 0)
  = VNum (Facts.internalCount f).
Proof. trust_cases; reflexivity. Qed.

Lemma get_hasSchema :
  get (toValue f) "trust.hasSchema" (VBool false) = VBool (Facts.schema f).
Proof. trust_cases; reflexivity. Qed.
End GetOnFacts.

(* ================================================================== *)
(** ** The loops of the interpreter as list functions *)
(* ================================================================== *)

Lemma criticalMetris_filter (sections : list SeoSection.t) :
  criticalMetris sections = filter isCritical (allMetrics sections).
Proof.
  unfold criticalMetris, allMetrics.
  assert (inner : forall ms found,
    fold_left (fun found m =>
                 if Status_eqb (status m) critical then push found m else found)
              ms found
    = found ++ filter isCritical ms).
  { induction ms as [|m ms IH]; intros found; simpl.
    - now rewrite app_nil_r.
    - rewrite IH. unfold isCritical, push.
      destruct (Status_eqb (status m) critical); [|reflexivity].
      now rewrite <- app_assoc. }
  assert (outer : forall ss found,
    fold_left (fun found s =>
                 fold_left (fun found m =>
                    if Status_eqb (status m) critical then push found m else found)
                  (metrics s) found)
              ss found
    = found ++ filter isCritical (flat_map metrics ss)).
  { induction ss as [|s ss IH]; intros found; simpl.
    - now rewrite app_nil_r.
    - rewrite IH, inner, filter_app. now rewrite app_assoc. }
  apply (outer sections []).
Qed.

Lemma sumPoints_app (a b : list MetricResult.t) :
  sumPoints (a ++ b) = sumPoints a + sumPoints b.
Proof. induction a as [|m a IH]; simpl; [reflexivity | rewrite IH; lia]. Qed.

Lemma calculateAggregatedScore_average (sections : list SeoSection.t) :
  calculateAggregatedScore sections
  = Math_round
      (PrimFloat.div
         (to_double (sumPoints (allMetrics sections)))
         (to_double (Z.of_nat (List.length (allMetrics sections))))).
Proof.
  unfold calculateAggregatedScore, allMetrics.
  set (step := fun '(total, count) (m : MetricResult.t) =>
     (match status m with
      | good => total + 100
      | warning => total + 50
      | critical => total + 0
      | unknown => total + 70
      end, count + 1)).
  assert (inner : forall ms total count,
    fold_left step ms (total, count)
    = (total + sumPoints ms, count + Z.of_nat (List.length ms))).
  { induction ms as [|m ms IH]; intros total count.
    - simpl. f_equal; lia.
    - cbn [fold_left step]. rewrite IH. cbn [sumPoints fold_right List.length].
      unfold sumPoints, points.
      destruct (status m); f_equal; lia. }
  assert (outer : forall ss total count,
    fold_left (fun acc s => fold_left step (metrics s) acc) ss (total, count)
    = (total + sumPoints (flat_map metrics ss),
       count + Z.of_nat (List.length (flat_map metrics ss)))).
  { induction ss as [|s ss IH]; intros total count.
    - simpl. f_equal; lia.
    - cbn [fold_left flat_map]. rewrite inner, IH, sumPoints_app, length_app.
      f_equal; lia. }
  rewrite outer. reflexivity.
Qed.

(** The sum of points is a multiple of ten, between 0 and 100 per metric. *)
Lemma sumPoints_tens (ms : list MetricResult.t) :
  exists k, sumPoints ms = 10 * k /\ 0 <= k <= 10 * Z.of_nat (List.length ms).
Proof.
  induction ms as [|m ms (k & E & B)].
  - exists 0. simpl. lia.
  - cbn [sumPoints fold_right List.length]. fold (sumPoints ms). rewrite E.
    unfold points. destruct (status m);
      [exists (k + 10) | exists (k + 5) | exists k | exists (k + 7)]; lia.
Qed.

(* ================================================================== *)
(** ** Doubles against exact arithmetic *)
(* ================================================================== *)

Lemma rounds_tob_true (num den n : Z) :
  rounds_tob num den n = true -> rounds_to num den n.
Proof. unfold rounds_tob, rounds_to. lia. Qed.

Lemma exactly_true (x : number) (num den : Z) :
  exactly x num den = true -> exists n, x = Finite n /\ rounds_to num den n.
Proof.
  destruct x as [| |n]; simpl; try discriminate.
  intros H. exists n. split; [reflexivity | now apply rounds_tob_true].
Qed.

(** For up to 39 metrics, the double computation of a percentage is the
    exact quotient rounded: checked on every pair [passed <= total]. *)
Lemma percentage_table :
  forallb
    (fun total =>
       forallb
         (fun passed =>
            exactly (percentage passed total)
                    (100 * Z.of_nat passed) (Z.of_nat total))
         (seq 0 (S total)))
    (seq 1 39) = true.
Proof. vm_compute. reflexivity. Qed.

Lemma percentage_exact (passed total : nat) :
  (1 <= total <= 39)%nat -> (passed <= total)%nat ->
  exists n, percentage passed total = Finite n
            /\ rounds_to (100 * Z.of_nat passed) (Z.of_nat total) n.
Proof.
  intros Ht Hp. apply exactly_true.
  pose proof percentage_table as T.
  rewrite forallb_forall in T.
  specialize (T total). rewrite forallb_forall in T.
  apply T; apply in_seq; lia.
Qed.

(** With 40 metrics it no longer is: [23 / 40 * 100] is
    [57.49999999999999] in doubles and rounds to 57, where the exact
    quotient 57.5 rounds to 58. *)
Remark percentage_23_of_40 :
  percentage 23 40 = Finite 57 /\ rounds_to (100 * 23) 40 58.
Proof. split; [vm_compute; reflexivity | unfold rounds_to; lia]. Qed.

(** For up to 14 metrics, the double average of a sum of points is the
    exact average rounded. *)
Lemma average_table :
  forallb
    (fun count =>
       forallb
         (fun k =>
            exactly (average (10 * Z.of_nat k) (Z.of_nat count))
                    (10 * Z.of_nat k) (Z.of_nat count))
         (seq 0 (S (10 * count))))
    (seq 1 14) = true.
Proof. vm_compute. reflexivity. Qed.

Lemma average_exact (k : Z) (count : nat) :
  (1 <= count <= 14)%nat -> 0 <= k <= 10 * Z.of_nat count ->
  exists n, average (10 * k) (Z.of_nat count) = Finite n
            /\ rounds_to (10 * k) (Z.of_nat count) n.
Proof.
  intros Hc Hk. apply exactly_true.
  pose proof average_table as T.
  rewrite forallb_forall in T.
  specialize (T count). rewrite forallb_forall in T.
  replace k with (Z.of_nat (Z.to_nat k)) by lia.
  apply T; apply in_seq; lia.
Qed.

(* ================================================================== *)
(** ** Categories *)
(* ================================================================== *)

Lemma clamp_Finite (n lo hi : Z) :
  clamp (Finite n) (Finite lo) (Finite hi) = Finite (Z.max lo (Z.min hi n)).
Proof.
  unfold clamp, Math_min, Math_max, number_ltb.
  destruct (n <? hi) eqn:E1; cbn [number_ltb].
  - destruct (lo <? n) eqn:E2; f_equal; lia.
  - destruct (lo <? hi) eqn:E2; f_equal; lia.
Qed.

Lemma getPriority_Finite (s : Z) : getPriority (Finite s) = priorityOf s.
Proof. reflexivity. Qed.

Lemma passed_le_total (ms : list MetricResult.t) :
  (List.length (filter isGood ms) <= List.length ms)%nat.
Proof. apply filter_length_le. Qed.

(** What [calculateCat] returns for a list of 1 to 39 metrics. *)
Lemma calculateCat_nonempty (ms : list MetricResult.t) (l d : string) :
  (1 <= List.length ms <= 39)%nat ->
  exists n,
    rounds_to (100 * Z.of_nat (List.length (filter isGood ms)))
              (Z.of_nat (List.length ms)) n
    /\ calculateCat ms l d
       = {| SeoBreakdownCategory.score := Finite (Z.max 15 (Z.min 95 n));
            SeoBreakdownCategory.label := l;
            SeoBreakdownCategory.description := d;
            SeoBreakdownCategory.passed := List.length (filter isGood ms);
            SeoBreakdownCategory.total := List.length ms;
            SeoBreakdownCategory.priority :=
              priorityOf (Z.max 15 (Z.min 95 n)) |}.
Proof.
  intros Hlen.
  destruct (percentage_exact Hlen (passed_le_total ms)) as (n & E & R).
  exists n. split; [exact R|].
  unfold calculateCat. fold isGood.
  replace (0 <? List.length ms)%nat with true
    by (symmetry; apply Nat.ltb_lt; lia).
  unfold percentage in E. rewrite E, clamp_Finite, getPriority_Finite.
  reflexivity.
Qed.

Lemma calculateCat_empty (l d : string) :
  calculateCat [] l d
  = {| SeoBreakdownCategory.score := Finite 15;
       SeoBreakdownCategory.label := l;
       SeoBreakdownCategory.description := d;
       SeoBreakdownCategory.passed := 0;
       SeoBreakdownCategory.total := 0;
       SeoBreakdownCategory.priority := Priority.critical |}.
Proof. reflexivity. Qed.

(** The score of a category only depends on how many metrics it has and how
    many of them are good. *)
Lemma calculateCat_score (ms : list MetricResult.t) (l d : string) :
  SeoBreakdownCategory.score (calculateCat ms l d)
  = if (0 <? List.length ms)%nat
    then clamp (percentage (List.length (filter isGood ms)) (List.length ms))
               (Finite 15) (Finite 95)
    else Finite 15.
Proof. reflexivity. Qed.

(* ================================================================== *)
(** ** Weakest and strongest area *)
(* ================================================================== *)

Lemma insert_length (A : Type) (cmp : A -> A -> number) (x : A) (l : list A) :
  List.length (insert cmp x l) = S (List.length l).
Proof.
  induction l as [|y l IH]; simpl; [reflexivity|].
  destruct (after cmp x y); simpl; [now rewrite IH | reflexivity].
Qed.

Lemma sort_length (A : Type) (cmp : A -> A -> number) (l : list A) :
  List.length (sort cmp l) = List.length l.
Proof.
  induction l as [|x l IH]; simpl; [reflexivity|].
  now rewrite insert_length, IH.
Qed.

(** The sort rearranges the array. *)
Lemma insert_Permutation (A : Type) (cmp : A -> A -> number) (x : A)
    (l : list A) :
  Permutation (insert cmp x l) (x :: l).
Proof.
  induction l as [|y l IH]; simpl; [apply Permutation_refl|].
  destruct (after cmp x y); [|apply Permutation_refl].
  eapply perm_trans; [apply perm_skip, IH | apply perm_swap].
Qed.

Lemma sort_Permutation (A : Type) (cmp : A -> A -> number) (l : list A) :
  Permutation (sort cmp l) l.
Proof.
  induction l as [|x l IH]; simpl; [apply perm_nil|].
  eapply perm_trans; [apply insert_Permutation | apply perm_skip, IH].
Qed.

(** The three categories come out in ascending order of score. *)
Lemma sort_categories_ascending (a b c : Z) :
  exists x y z,
    map Entry.score (sort byScore (categories (Finite a) (Finite b) (Finite c)))
    = [Finite x; Finite y; Finite z]
    /\ x <= y <= z.
Proof.
  unfold categories, sort, fold_right, insert, after, byScore, number_sub,
    number_ltb.
  cbn [Entry.score].
  destruct (0 <? b - c) eqn:Ebc; cbn [Entry.score];
  destruct (0 <? a - c) eqn:Eac; cbn [Entry.score];
  destruct (0 <? a - b) eqn:Eab; cbn [Entry.score map];
  do 3 eexists; (split; [reflexivity | lia]).
Qed.

(** The selection never fails, whatever the three scores are. *)
Lemma weakestStrongest_returns (a b c : number) :
  exists s, weakestStrongest a b c = Return s.
Proof.
  unfold weakestStrongest.
  set (sorted := sort _ _).
  assert (L : List.length sorted = 3%nat) by (unfold sorted; now rewrite sort_length).
  destruct sorted as [|x [|y [|z [|? ?]]]]; try discriminate L.
  simpl. eexists. reflexivity.
Qed.

Lemma weakestStrongest_Finite (a b c : Z) :
  weakestStrongest (Finite a) (Finite b) (Finite c)
  = Return {| SeoBreakdown.weakestArea := firstLowest a b c;
              SeoBreakdown.strongestArea := lastHighest a b c;
              SeoBreakdown.recommendedFocus := firstLowest a b c |}.
Proof.
  unfold weakestStrongest, categories, sort, fold_right, insert, after,
    byScore, number_sub, number_ltb, firstLowest, lastHighest.
  cbn [Entry.score].
  destruct (0 <? b - c) eqn:Ebc; cbn [Entry.score];
  destruct (0 <? a - c) eqn:Eac; cbn [Entry.score];
  destruct (0 <? a - b) eqn:Eab; cbn [Entry.score element nth_error bind Entry.key];
  destruct (a <=? b) eqn:Lab; destruct (a <=? c) eqn:Lac;
  destruct (b <=? c) eqn:Lbc; cbn [andb]; try reflexivity; exfalso; lia.
Qed.

(* ================================================================== *)
(** ** The sections of a fact record *)
(* ================================================================== *)

(** Pushing under a conditional, and mapping over a push. *)
Lemma push_if (A : Type) (b : bool) (l : list A) (x y : A) :
  (if b then push l x else push l y) = push l (if b then x else y).
Proof. now destruct b. Qed.

Lemma map_push (A B : Type) (g : A -> B) (l : list A) (x : A) :
  map g (push l x) = map g l ++ [g x].
Proof. unfold push. now rewrite map_app. Qed.

Lemma apply_if (A B : Type) (g : A -> B) (b : bool) (x y : A) :
  g (if b then x else y) = if b then g x else g y.
Proof. now destruct b. Qed.

Section SectionsOnFacts.
Variable f : Facts.t.

Lemma searchVisibility_statuses :
  map status (searchVisibility (toValue f))
  = [ Rules.title (Facts.titleExists f) (Facts.titleLen f);
      Rules.meta (Facts.metaExists f) (Facts.metaLen f);
      Rules.flag (Facts.ogPresent f) warning ].
Proof.
  unfold searchVisibility.
  rewrite get_titleLen, get_titleExists, get_metaLen, get_metaExists, get_hasOg.
  cbv zeta. rewrite !push_if, !map_push, !(apply_if status).
  reflexivity.
Qed.

Lemma technicalHealth_statuses :
  map status (technicalHealth (toValue f))
  = [ Rules.flag (Facts.isHttps f) critical;
      Rules.flag (Facts.isMobile f) critical;
      Rules.flag (negb (Facts.noIndex f)) critical;
      Rules.flag (Facts.hasSitemap f) warning ].
Proof.
  unfold technicalHealth.
  rewrite get_https, get_mobileFriendly, get_noindex, get_sitemap.
  cbv zeta. rewrite !map_push. cbn [ToBoolean status map app].
  now destruct (Facts.noIndex f).
Qed.

Lemma trustCredibility_statuses :
  map status (trustCredibility (toValue f))
  = [ Rules.flag (5 <? Facts.internalCount f) warning;
      Rules.flag (Facts.schema f) warning ].
Proof.
  unfold trustCredibility.
  rewrite get_internalLinks, get_hasSchema.
  cbv zeta. rewrite !map_push. reflexivity.
Qed.

(** The content section never throws on a fact record; the image entry
    is its third metric when there is one, and the only one with that
    title. *)
Lemma contentStrength_facts :
  exists cs,
    contentStrength (toValue f) = Return cs
    /\ map status cs
       = [Rules.headline (Facts.h1 f); Rules.depth (Facts.words f)]
         ++ Rules.images (Facts.imagesTotal f) (Facts.imagesMissing f)
    /\ map status
         (filter (fun m => String.eqb (title m) "Image accessibility") cs)
       = Rules.images (Facts.imagesTotal f) (Facts.imagesMissing f).
Proof.
  unfold contentStrength.
  rewrite get_h1Count, get_wordCount, get_altStats.
  cbv zeta. rewrite !push_if.
  match goal with
  | |- context [push ?l {| title := "Image accessibility";
                           status := good;
                           plainExplanation := _;
                           whyItMatters := _;
                           action := _ |}] => set (base := l)
  end.
  assert (Hstatus : map status base
                    = [Rules.headline (Facts.h1 f); Rules.depth (Facts.words f)]).
  { unfold base. rewrite !map_push, !(apply_if status). reflexivity. }
  assert (Hfilter :
    filter (fun m => String.eqb (title m) "Image accessibility") base = []).
  { unfold base, js_strict_eq, js_gt, js_lt. cbn [ToNumber].
    destruct (Facts.h1 f =? 0), (1 <? Facts.h1 f),
      (Facts.words f <? 300), (Facts.words f <? 600); reflexivity. }
  clearbody base.
  unfold Facts.imagesTotal, Facts.imagesMissing, Rules.images, push.
  destruct (Facts.sub (Facts.sub (Facts.onpage f) Facts.images) Facts.altStats)
    as [[[total|] [missing|]]|];
    cbn [altStatsValue member read lookup String.eqb Ascii.eqb Bool.eqb
         property app bind Facts.or_else Facts.sub Facts.total Facts.missing
         js_gt ToNumber];
    try destruct (0 <? total); try destruct (0 <? missing);
    cbn [bind member read lookup String.eqb Ascii.eqb Bool.eqb js_gt ToNumber];
    try destruct (0 <? total);
    eexists; (split; [reflexivity|]);
    rewrite ?map_app, ?filter_app, ?Hfilter, ?Hstatus; split; reflexivity.
Qed.
End SectionsOnFacts.

(* ================================================================== *)
(** ** The shape of a report *)
(* ================================================================== *)

(** When the content section is built, the interpreter returns, and the
    report is assembled from the four computed sections. *)
Lemma interpretSeoMetrics_returns (data : value) (cs : list MetricResult.t) :
  contentStrength data = Return cs ->
  exists summary,
    weakestStrongest
      (SeoBreakdownCategory.score
         (calculateCat (searchVisibility data ++ cs)
            "On-page SEO" "Content and keyword optimization"))
      (SeoBreakdownCategory.score
         (calculateCat (technicalHealth data)
            "Technical SEO" "Speed, crawlability, and indexability"))
      (SeoBreakdownCategory.score
         (calculateCat (trustCredibility data ++ growthSignals)
            "Authority" "Links, trust, and domain strength"))
    = Return summary
    /\ interpretSeoMetrics data
       = Return (reportOf (searchVisibility data) cs (technicalHealth data)
                          (trustCredibility data) summary).
Proof.
  intros Hcs.
  match goal with
  | |- exists _, weakestStrongest ?a ?b ?c = _ /\ _ =>
      destruct (weakestStrongest_returns a b c) as [areas Hareas]
  end.
  exists areas. split; [exact Hareas|].
  unfold interpretSeoMetrics. rewrite Hcs. cbn [bind].
  unfold push. cbn [app]. rewrite Hareas. reflexivity.
Qed.

Lemma interpret_shape (f : Facts.t) :
  exists r sv cs th tc, interpret f = Return r /\ Shape f r sv cs th tc.
Proof.
  destruct (contentStrength_facts f) as (cs & Hcs & Hst & Him).
  destruct (interpretSeoMetrics_returns _ Hcs) as (s & Hs & Hr).
  exists (reportOf (searchVisibility (toValue f)) cs
            (technicalHealth (toValue f)) (trustCredibility (toValue f)) s),
    (searchVisibility (toValue f)), cs,
    (technicalHealth (toValue f)), (trustCredibility (toValue f)).
  split; [exact Hr|].
  constructor.
  - exists s. split; [exact Hs | reflexivity].
  - apply searchVisibility_statuses.
  - exact Hst.
  - exact Him.
  - apply technicalHealth_statuses.
  - apply trustCredibility_statuses.
Qed.

(** Opening step of the properties below: name the report of [f], the
    metrics [sv], [cs], [th], [tc] of its first four sections and its
    shape [S], and give the report as the witness. *)
Ltac the_report f :=
  destruct (interpret_shape f) as (r & sv & cs & th & tc & Hr & S);
  exists r; split; [exact Hr|].

(** The sizes of the sections. *)
Lemma map_length_eq (A B : Type) (g : A -> B) (l : list A) (l' : list B) :
  map g l = l' -> List.length l = List.length l'.
Proof. intros <-. now rewrite length_map. Qed.

Lemma images_length (total missing : Z) :
  (List.length (Rules.images total missing) <= 1)%nat.
Proof. unfold Rules.images. destruct (0 <? total); simpl; lia. Qed.

Lemma Shape_lengths (f : Facts.t) (r : SeoReport.t)
    (sv cs th tc : list MetricResult.t) :
  Shape f r sv cs th tc ->
  List.length sv = 3%nat /\ (2 <= List.length cs <= 3)%nat
  /\ List.length th = 4%nat /\ List.length tc = 2%nat.
Proof.
  intros [_ Hsv Hcs _ Hth Htc].
  apply map_length_eq in Hsv, Hcs, Hth, Htc.
  rewrite length_app in Hcs.
  pose proof (images_length (Facts.imagesTotal f) (Facts.imagesMissing f)).
  simpl in *. lia.
Qed.

Lemma allMetrics_fiveSections (sv cs th tc : list MetricResult.t) :
  allMetrics (fiveSections sv cs th tc) = sv ++ cs ++ th ++ tc ++ growthSignals.
Proof.
  unfold allMetrics, fiveSections. cbn [flat_map metrics].
  now rewrite app_nil_r.
Qed.

(** The aggregate score of any report with 1 to 14 metrics. *)
Lemma aggregate_exact (sections : list SeoSection.t) :
  (1 <= List.length (allMetrics sections) <= 14)%nat ->
  exists n,
    calculateAggregatedScore sections = Finite n
    /\ rounds_to (sumPoints (allMetrics sections))
                 (Z.of_nat (List.length (allMetrics sections))) n.
Proof.
  intros Hlen.
  rewrite calculateAggregatedScore_average.
  destruct (sumPoints_tens (allMetrics sections)) as (k & -> & Hk).
  exact (average_exact Hlen Hk).
Qed.

Lemma rounds_to_bounds (num den n : Z) :
  0 < den -> 0 <= num <= 100 * den -> rounds_to num den n -> 0 <= n <= 100.
Proof. unfold rounds_to. intros Hd Hn H. nia. Qed.

(* ================================================================== *)
(** ** Properties of the reports *)
(* ================================================================== *)

(** C1. For every fact record, the aggregate score of the report is the
    average, over all the metrics of its five sections (the two growth
    signals included), of the points of their statuses (good 100, warning
    50, critical 0, unknown 70), rounded to the nearest integer. *)
Theorem aggregate_score_rounded_average (f : Facts.t) :
  exists r,
    interpret f = Return r
    /\ map name (SeoReport.sections r) = sectionNames
    /\ (exists others,
          allMetrics (SeoReport.sections r) = others ++ growthSignals)
    /\ exists n,
         SeoReport.score r = Finite n
         /\ rounds_to (sumPoints (allMetrics (SeoReport.sections r)))
                      (Z.of_nat (List.length (allMetrics (SeoReport.sections r))))
                      n.
Proof.
  the_report f.
  pose proof (Shape_lengths S) as (Lsv & Lcs & Lth & Ltc).
  destruct (shape_report S) as (areas & _ & ->).
  cbn [reportOf SeoReport.sections SeoReport.score].
  split; [reflexivity|]. split.
  - exists (sv ++ cs ++ th ++ tc).
    rewrite allMetrics_fiveSections. now rewrite <- !app_assoc.
  - apply aggregate_exact.
    rewrite allMetrics_fiveSections, !length_app, Lsv, Lth, Ltc.
    simpl. lia.
Qed.

Lemma calculateCat_scoredFrom (ms : list MetricResult.t) (l d : string) :
  (1 <= List.length ms <= 39)%nat -> scoredFrom (calculateCat ms l d) ms.
Proof.
  intros Hlen. destruct (@calculateCat_nonempty ms l d Hlen) as (n & R & ->).
  unfold scoredFrom.
  cbn [SeoBreakdownCategory.total SeoBreakdownCategory.passed
       SeoBreakdownCategory.score SeoBreakdownCategory.priority].
  split; [reflexivity|]. split; [reflexivity|].
  exists n. split; [exact R|]. split; reflexivity.
Qed.

Lemma Shape_categories (f : Facts.t) (r : SeoReport.t)
    (sv cs th tc : list MetricResult.t) :
  Shape f r sv cs th tc ->
  scoredFrom (SeoBreakdown.onPage (SeoReport.seoBreakdown r)) (sv ++ cs)
  /\ scoredFrom (SeoBreakdown.technical (SeoReport.seoBreakdown r)) th
  /\ scoredFrom (SeoBreakdown.authority (SeoReport.seoBreakdown r))
                (tc ++ growthSignals).
Proof.
  intros S.
  pose proof (Shape_lengths S) as (Lsv & Lcs & Lth & Ltc).
  destruct (shape_report S) as (areas & _ & ->).
  cbn [reportOf SeoReport.seoBreakdown SeoBreakdown.onPage
       SeoBreakdown.technical SeoBreakdown.authority].
  repeat split; apply calculateCat_scoredFrom;
    rewrite ?length_app, ?Lsv, ?Lth, ?Ltc; simpl; lia.
Qed.

Lemma sectionMetrics_reportOf (sv cs th tc : list MetricResult.t)
    (areas : SeoBreakdown.summary_t) :
  let r := reportOf sv cs th tc areas in
  sectionMetrics r "Search visibility" = sv
  /\ sectionMetrics r "Content strength" = cs
  /\ sectionMetrics r "Technical health" = th
  /\ sectionMetrics r "Trust & credibility" = tc
  /\ sectionMetrics r "Growth signals" = growthSignals.
Proof. repeat split. Qed.

(** C2. For every fact record, each of the three categories of the
    breakdown is scored from its metrics (onPage from the search and
    content sections, technical from the technical section, authority from
    the trust and growth sections): its score is [passed / total * 100]
    rounded, where [passed] counts the good metrics only, clamped to
    [15, 95], and its priority is critical below 30, warning below 70 and
    good otherwise.  A category without metrics scores 15, and nine
    metrics of which three are good score 33, a warning. *)
Theorem category_scores :
  (forall f : Facts.t,
     exists r,
       interpret f = Return r
       /\ scoredFrom (SeoBreakdown.onPage (SeoReport.seoBreakdown r))
                     (sectionMetrics r "Search visibility"
                      ++ sectionMetrics r "Content strength")
       /\ scoredFrom (SeoBreakdown.technical (SeoReport.seoBreakdown r))
                     (sectionMetrics r "Technical health")
       /\ scoredFrom (SeoBreakdown.authority (SeoReport.seoBreakdown r))
                     (sectionMetrics r "Trust & credibility"
                      ++ sectionMetrics r "Growth signals"))
  /\ (forall l d : string,
        SeoBreakdownCategory.score (calculateCat [] l d) = Finite 15)
  /\ (forall (ms : list MetricResult.t) (l d : string),
        List.length ms = 9%nat ->
        List.length (filter isGood ms) = 3%nat ->
        SeoBreakdownCategory.score (calculateCat ms l d) = Finite 33
        /\ SeoBreakdownCategory.priority (calculateCat ms l d) = Priority.warning).
Proof.
  split; [|split].
  - intros f.
    the_report f.
    pose proof (Shape_categories S) as C.
    destruct (shape_report S) as (areas & _ & E).
    pose proof (sectionMetrics_reportOf sv cs th tc areas) as M.
    rewrite <- E in M. cbv zeta in M.
    destruct M as (-> & -> & -> & -> & ->). exact C.
  - reflexivity.
  - intros ms l d Hlen Hgood.
    unfold calculateCat. fold isGood. rewrite Hlen, Hgood.
    vm_compute. split; reflexivity.
Qed.

(** The nine-metric case of [category_scores] on a concrete category. *)
Lemma category_scores_witness :
  let m s := {| title := "t"; status := s; plainExplanation := "p";
                whyItMatters := "w"; action := "a" |} in
  let ms := [m good; m critical; m good; m warning; m unknown;
             m critical; m good; m warning; m critical] in
  SeoBreakdownCategory.score (calculateCat ms "l" "d") = Finite 33
  /\ SeoBreakdownCategory.priority (calculateCat ms "l" "d") = Priority.warning.
Proof.
  intros m ms.
  exact (proj2 (proj2 category_scores) ms "l" "d" eq_refl eq_refl).
Defined.

(** C8. For every fact record, the aggregate score lies between 0 and 100
    and each of the three category scores between 15 and 95. *)
Theorem score_bounds (f : Facts.t) :
  exists r,
    interpret f = Return r
    /\ (exists n, SeoReport.score r = Finite n /\ 0 <= n <= 100)
    /\ (exists s,
          SeoBreakdownCategory.score
            (SeoBreakdown.onPage (SeoReport.seoBreakdown r)) = Finite s
          /\ 15 <= s <= 95)
    /\ (exists s,
          SeoBreakdownCategory.score
            (SeoBreakdown.technical (SeoReport.seoBreakdown r)) = Finite s
          /\ 15 <= s <= 95)
    /\ (exists s,
          SeoBreakdownCategory.score
            (SeoBreakdown.authority (SeoReport.seoBreakdown r)) = Finite s
          /\ 15 <= s <= 95).
Proof.
  the_report f.
  pose proof (Shape_lengths S) as (Lsv & Lcs & Lth & Ltc).
  destruct (Shape_categories S)
    as ((_ & _ & n1 & _ & E1 & _) & (_ & _ & n2 & _ & E2 & _)
        & (_ & _ & n3 & _ & E3 & _)).
  split; [|repeat split; eexists; (split; [eassumption | lia])].
  destruct (shape_report S) as (areas & _ & ->).
  cbn [reportOf SeoReport.score].
  assert (Hlen : (1 <= List.length (allMetrics (fiveSections sv cs th tc)) <= 14)%nat).
  { rewrite allMetrics_fiveSections, !length_app, Lsv, Lth, Ltc. simpl. lia. }
  destruct (aggregate_exact _ Hlen) as (n & E & R).
  exists n. split; [exact E|].
  destruct (sumPoints_tens (allMetrics (fiveSections sv cs th tc))) as (k & Ek & Hk).
  apply (rounds_to_bounds (num := sumPoints (allMetrics (fiveSections sv cs th tc)))
           (den := Z.of_nat (List.length (allMetrics (fiveSections sv cs th tc)))));
    [lia | lia | exact R].
Qed.

Lemma growthSignals_none_good : filter isGood growthSignals = [].
Proof. reflexivity. Qed.

(** C10. For every fact record, the authority category has four metrics,
    of which the two growth signals are never good, so at most two pass:
    its score is 15, 25 or 50, never above 50, and its priority is
    critical or warning, never good. *)
Theorem authority_never_good (f : Facts.t) :
  exists r,
    interpret f = Return r
    /\ let authority := SeoBreakdown.authority (SeoReport.seoBreakdown r) in
       SeoBreakdownCategory.total authority = 4%nat
       /\ (SeoBreakdownCategory.passed authority <= 2)%nat
       /\ Forall (fun m => status m = unknown)
                 (sectionMetrics r "Growth signals")
       /\ (exists s,
             SeoBreakdownCategory.score authority = Finite s
             /\ (s = 15 \/ s = 25 \/ s = 50) /\ s <= 50)
       /\ SeoBreakdownCategory.priority authority <> Priority.good
       /\ (SeoBreakdownCategory.priority authority = Priority.critical
           \/ SeoBreakdownCategory.priority authority = Priority.warning).
Proof.
  the_report f. cbv zeta.
  pose proof (Shape_lengths S) as (_ & _ & _ & Ltc).
  destruct (Shape_categories S) as (_ & _ & Ht & Hp & n & R & Es & Ep).
  destruct (shape_report S) as (areas & _ & E).
  pose proof (sectionMetrics_reportOf sv cs th tc areas) as M.
  rewrite <- E in M. cbv zeta in M. destruct M as (_ & _ & _ & _ & ->).
  rewrite length_app, Ltc in Ht. cbn [List.length growthSignals push app] in Ht.
  rewrite filter_app, growthSignals_none_good, app_nil_r in Hp.
  pose proof (passed_le_total tc) as Hle. rewrite Ltc in Hle.
  rewrite Ht, Hp in R. unfold rounds_to in R.
  set (p := List.length (filter isGood tc)) in *.
  assert (Hn : n = 25 * Z.of_nat p) by lia.
  assert (Hs : Z.max 15 (Z.min 95 n) = 15 /\ p = 0%nat
               \/ Z.max 15 (Z.min 95 n) = 25 /\ p = 1%nat
               \/ Z.max 15 (Z.min 95 n) = 50 /\ p = 2%nat) by lia.
  split; [exact Ht|]. split; [lia|].
  split; [repeat constructor|].
  split; [exists (Z.max 15 (Z.min 95 n)); split; [exact Es | lia]|].
  rewrite Ep.
  destruct Hs as [[-> _]|[[-> _]|[-> _]]]; cbn;
    (split; [discriminate | auto]).
Qed.

(** C3, as the interpreter has it.  For every fact record, the actions of
    the summary are the action texts of the first four critical metrics of
    the report, in the order of the sections and of the metrics in them;
    when no metric is critical, the single action "Focus on getting more
    high-quality links from other websites." stands in.  The facts with no
    field at all have six critical metrics and four actions. *)
Theorem summary_actions :
  (forall f : Facts.t,
     exists r,
       interpret f = Return r
       /\ map name (SeoReport.sections r) = sectionNames
       /\ SeoReport.actions (SeoReport.summary r)
          = match filter isCritical (allMetrics (SeoReport.sections r)) with
            | [] => ["Focus on getting more high-quality links from other websites."]
            | found => map action (firstn 4 found)
            end)
  /\ (exists r,
        interpret Facts.empty = Return r
        /\ List.length (filter isCritical (allMetrics (SeoReport.sections r)))
           = 6%nat
        /\ SeoReport.actions (SeoReport.summary r)
           = [ "Add a clear, short title between 30 and 60 characters.";
               "Add a compelling description of 120-160 characters.";
               "Add one clear main headline (H1 tag) to the top of the page.";
               "Expand your content with more helpful details, examples, or data." ]).
Proof.
  split.
  - intros f.
    the_report f.
    destruct (shape_report S) as (areas & _ & ->).
    cbn [reportOf SeoReport.sections SeoReport.summary SeoReport.actions].
    split; [reflexivity|].
    unfold summaryActions. rewrite criticalMetris_filter.
    now destruct (filter isCritical (allMetrics (fiveSections sv cs th tc))).
  - eexists. split; [vm_compute; reflexivity|]. split; reflexivity.
Qed.

(** C3, as stated, fails: on a page without a critical metric the single
    action is not the text "build more external links". *)
Lemma summary_actions_fallback_text :
  exists r,
    interpret healthyPage = Return r
    /\ filter isCritical (allMetrics (SeoReport.sections r)) = []
    /\ SeoReport.actions (SeoReport.summary r)
       = ["Focus on getting more high-quality links from other websites."]
    /\ SeoReport.actions (SeoReport.summary r) <> ["build more external links"].
Proof.
  eexists. split; [vm_compute; reflexivity|].
  split; [reflexivity|]. split; [reflexivity|]. discriminate.
Qed.

(** C4. For every fact record, the status of the title metric follows the
    chain: title missing -> critical; else length > 60 -> critical; else
    length < 30 -> warning; else good.  With a title present, length 59
    gives good, 61 critical, 29 warning and 30 good; without one the
    metric is critical whatever the length. *)
Theorem title_rule :
  (forall f : Facts.t,
     exists r,
       interpret f = Return r
       /\ titleStatus r
          = Some (Rules.title (Facts.titleExists f) (Facts.titleLen f)))
  /\ (exists r, interpret (titled true 59) = Return r /\ titleStatus r = Some good)
  /\ (exists r, interpret (titled true 61) = Return r /\ titleStatus r = Some critical)
  /\ (exists r, interpret (titled true 29) = Return r /\ titleStatus r = Some warning)
  /\ (exists r, interpret (titled true 30) = Return r /\ titleStatus r = Some good)
  /\ (exists r, interpret (titled false 45) = Return r /\ titleStatus r = Some critical)
  /\ (exists r, interpret Facts.empty = Return r /\ titleStatus r = Some critical).
Proof.
  split.
  - intros f.
    the_report f.
    destruct (shape_report S) as (areas & _ & E).
    pose proof (sectionMetrics_reportOf sv cs th tc areas) as M.
    rewrite <- E in M. cbv zeta in M. destruct M as (M & _).
    unfold titleStatus. rewrite M.
    pose proof (shape_sv S) as Hsv.
    destruct sv as [|m sv']; [discriminate Hsv|].
    injection Hsv as Hm _. cbn [hd_error option_map]. now rewrite Hm.
  - repeat split; eexists; (split; [vm_compute; reflexivity | reflexivity]).
Qed.

(** C5. For every fact record, the content section has an "Image
    accessibility" metric exactly when the number of images is above 0;
    there is then one such metric, a warning when some image misses its
    alt text and good otherwise.  No image: no entry; 10 images, none
    missing: good; 10 images, 3 missing: warning. *)
Theorem image_accessibility :
  (forall f : Facts.t,
     exists r,
       interpret f = Return r
       /\ ((exists m, In m (sectionMetrics r "Content strength")
                      /\ title m = "Image accessibility")
           <-> 0 < Facts.imagesTotal f)
       /\ map status (imageEntries r)
          = if 0 <? Facts.imagesTotal f
            then [if 0 <? Facts.imagesMissing f then warning else good]
            else [])
  /\ (exists r, interpret (pictured 0 0) = Return r /\ imageEntries r = [])
  /\ (exists r, interpret (pictured 10 0) = Return r
                /\ map status (imageEntries r) = [good])
  /\ (exists r, interpret (pictured 10 3) = Return r
                /\ map status (imageEntries r) = [warning]).
Proof.
  split.
  - intros f.
    the_report f.
    destruct (shape_report S) as (areas & _ & E).
    pose proof (sectionMetrics_reportOf sv cs th tc areas) as M.
    rewrite <- E in M. cbv zeta in M. destruct M as (_ & M & _).
    unfold imageEntries. rewrite M.
    pose proof (shape_images S) as Him. unfold Rules.images in Him.
    split; [|exact Him].
    split.
    + intros (m & Hin & Ht).
      destruct (0 <? Facts.imagesTotal f) eqn:Epos; [lia|].
      assert (Hf : In m (filter (fun m => String.eqb (title m) "Image accessibility") cs)).
      { apply filter_In. split; [exact Hin|]. now apply String.eqb_eq. }
      destruct (filter _ cs); [destruct Hf | discriminate Him].
    + intros Hpos.
      replace (0 <? Facts.imagesTotal f) with true in Him
        by (symmetry; apply Z.ltb_lt; exact Hpos).
      destruct (filter (fun m => String.eqb (title m) "Image accessibility") cs)
        as [|m rest] eqn:Ef; [discriminate Him|].
      assert (Hf : In m (filter (fun m => String.eqb (title m) "Image accessibility") cs))
        by (rewrite Ef; now left).
      apply filter_In in Hf. destruct Hf as (Hin & Ht).
      exists m. split; [exact Hin | now apply String.eqb_eq].
  - repeat split; eexists; (split; [vm_compute; reflexivity | reflexivity]).
Qed.

Lemma firstLowest_Lowest (a b c : Z) : Lowest a b c (firstLowest a b c).
Proof.
  unfold firstLowest.
  destruct (a <=? b) eqn:Eab; destruct (a <=? c) eqn:Eac;
    destruct (b <=? c) eqn:Ebc; cbn [andb]; constructor; lia.
Qed.

Lemma lastHighest_Highest (a b c : Z) : Highest a b c (lastHighest a b c).
Proof.
  unfold lastHighest.
  destruct (a <=? b) eqn:Eab; destruct (a <=? c) eqn:Eac;
    destruct (b <=? c) eqn:Ebc; cbn [andb]; constructor; lia.
Qed.

(** C6. For every fact record, the summary of the breakdown comes from
    sorting the three category scores in ascending order: the weakest
    area, which is also the recommended focus, is the area with the lowest
    score and the strongest area the one with the highest; the sort being
    stable, equal scores keep the order onPage, technical, authority, so
    that a tie for the lowest goes to the first and a tie for the highest
    to the last of them.  On any three scores the sort rearranges the
    three categories into ascending order and the selection reads it as
    said; the scores 20, 80 and 50 give onPage, technical and onPage. *)
Theorem weakest_and_strongest :
  (forall f : Facts.t,
     exists r a b c,
       interpret f = Return r
       /\ SeoBreakdownCategory.score
            (SeoBreakdown.onPage (SeoReport.seoBreakdown r)) = Finite a
       /\ SeoBreakdownCategory.score
            (SeoBreakdown.technical (SeoReport.seoBreakdown r)) = Finite b
       /\ SeoBreakdownCategory.score
            (SeoBreakdown.authority (SeoReport.seoBreakdown r)) = Finite c
       /\ let summary := SeoBreakdown.summary (SeoReport.seoBreakdown r) in
          Lowest a b c (SeoBreakdown.weakestArea summary)
          /\ Highest a b c (SeoBreakdown.strongestArea summary)
          /\ SeoBreakdown.recommendedFocus summary
             = SeoBreakdown.weakestArea summary)
  /\ (forall a b c : Z,
        let unsorted := categories (Finite a) (Finite b) (Finite c) in
        Permutation (sort byScore unsorted) unsorted
        /\ (exists x y z,
              map Entry.score (sort byScore unsorted)
              = [Finite x; Finite y; Finite z]
              /\ x <= y <= z)
        /\ exists summary,
             weakestStrongest (Finite a) (Finite b) (Finite c) = Return summary
             /\ Lowest a b c (SeoBreakdown.weakestArea summary)
             /\ Highest a b c (SeoBreakdown.strongestArea summary)
             /\ SeoBreakdown.recommendedFocus summary
                = SeoBreakdown.weakestArea summary)
  /\ weakestStrongest (Finite 20) (Finite 80) (Finite 50)
     = Return {| SeoBreakdown.weakestArea := "onPage";
                 SeoBreakdown.strongestArea := "technical";
                 SeoBreakdown.recommendedFocus := "onPage" |}.
Proof.
  split; [|split].
  - intros f.
    destruct (interpret_shape f) as (r & sv & cs & th & tc & Hr & S).
    destruct (Shape_categories S)
      as ((_ & _ & n1 & _ & E1 & _) & (_ & _ & n2 & _ & E2 & _)
          & (_ & _ & n3 & _ & E3 & _)).
    exists r, (Z.max 15 (Z.min 95 n1)), (Z.max 15 (Z.min 95 n2)),
      (Z.max 15 (Z.min 95 n3)).
    repeat (split; [assumption|]).
    destruct (shape_report S) as (areas & Hareas & E).
    rewrite E1, E2, E3, weakestStrongest_Finite in Hareas.
    injection Hareas as <-. rewrite E.
    cbn [reportOf SeoReport.seoBreakdown SeoBreakdown.summary
         SeoBreakdown.weakestArea SeoBreakdown.strongestArea
         SeoBreakdown.recommendedFocus].
    split; [apply firstLowest_Lowest|].
    split; [apply lastHighest_Highest | reflexivity].
  - intros a b c unsorted.
    split; [apply sort_Permutation|].
    split; [apply sort_categories_ascending|].
    eexists. split; [apply weakestStrongest_Finite|].
    cbn [SeoBreakdown.weakestArea SeoBreakdown.strongestArea
         SeoBreakdown.recommendedFocus].
    split; [apply firstLowest_Lowest|].
    split; [apply lastHighest_Highest | reflexivity].
  - reflexivity.
Qed.

(** C7. For every fact record, the growth section, the fifth of the
    report, holds the same two metrics, both of status unknown: the
    constant [growthSignals], in which no fact occurs. *)
Theorem growth_signals_constant (f : Facts.t) :
  exists r,
    interpret f = Return r
    /\ nth_error (SeoReport.sections r) 4
       = Some {| name := "Growth signals"; metrics := growthSignals |}
    /\ sectionMetrics r "Growth signals" = growthSignals
    /\ List.length growthSignals = 2%nat
    /\ map status growthSignals = [unknown; unknown]
    /\ map title growthSignals
       = ["Other Sites Recommending You"; "Domain Authority"].
Proof.
  the_report f.
  destruct (shape_report S) as (areas & _ & ->).
  repeat split.
Qed.

(* ================================================================== *)
(** ** Totality and defaults *)
(* ================================================================== *)

Section Defaults.
Variable f : Facts.t.

Lemma searchVisibility_withDefaults :
  searchVisibility (toValue (withDefaults f)) = searchVisibility (toValue f).
Proof.
  unfold searchVisibility.
  now rewrite !get_titleLen, !get_titleExists, !get_metaLen, !get_metaExists,
    !get_hasOg.
Qed.

Lemma technicalHealth_withDefaults :
  technicalHealth (toValue (withDefaults f)) = technicalHealth (toValue f).
Proof.
  unfold technicalHealth.
  now rewrite !get_https, !get_mobileFriendly, !get_noindex, !get_sitemap.
Qed.

Lemma trustCredibility_withDefaults :
  trustCredibility (toValue (withDefaults f)) = trustCredibility (toValue f).
Proof.
  unfold trustCredibility.
  now rewrite !get_internalLinks, !get_hasSchema.
Qed.

Lemma contentStrength_withDefaults :
  contentStrength (toValue (withDefaults f)) = contentStrength (toValue f).
Proof.
  unfold contentStrength.
  rewrite !get_h1Count, !get_wordCount, !get_altStats.
  change (Facts.h1 (withDefaults f)) with (Facts.h1 f).
  change (Facts.words (withDefaults f)) with (Facts.words f).
  cbv zeta. rewrite !push_if.
  match goal with
  | |- context [push ?l {| title := "Image accessibility";
                           status := good;
                           plainExplanation := _;
                           whyItMatters := _;
                           action := _ |}] => set (base := l)
  end.
  clearbody base.
  cbn [withDefaults Facts.sub Facts.onpage Facts.images Facts.altStats].
  unfold Facts.imagesTotal, Facts.imagesMissing.
  destruct (Facts.sub (Facts.sub (Facts.onpage f) Facts.images) Facts.altStats)
    as [[[total|] [missing|]]|];
    cbn [altStatsValue member read lookup String.eqb Ascii.eqb Bool.eqb
         property app bind Facts.or_else Facts.sub Facts.total Facts.missing
         js_gt ToNumber];
    try destruct (0 <? total); try destruct (0 <? missing);
    reflexivity.
Qed.

(** Missing fields resolve to their defaults before the rules are
    evaluated: the report of a fact record is the report of the record
    with the defaults filled in. *)
Lemma interpret_withDefaults : interpret (withDefaults f) = interpret f.
Proof.
  unfold interpret, interpretSeoMetrics.
  now rewrite searchVisibility_withDefaults, contentStrength_withDefaults,
    technicalHealth_withDefaults, trustCredibility_withDefaults.
Qed.
End Defaults.

Lemma Lowest_isArea (a b c : Z) (s : string) : Lowest a b c s -> isArea s.
Proof. unfold isArea. destruct 1; auto. Qed.

Lemma Highest_isArea (a b c : Z) (s : string) : Highest a b c s -> isArea s.
Proof. unfold isArea. destruct 1; auto. Qed.

Lemma summaryActions_length (sections : list SeoSection.t) :
  (1 <= List.length (summaryActions sections) <= 4)%nat.
Proof.
  unfold summaryActions.
  set (actions := map action (firstn 4 (criticalMetris sections))).
  assert (H : (List.length actions <= 4)%nat).
  { unfold actions. rewrite length_map. apply firstn_le_length. }
  destruct (Nat.eqb (List.length actions) 0) eqn:E.
  - apply Nat.eqb_eq in E. unfold push. rewrite length_app, E. simpl. lia.
  - apply Nat.eqb_neq in E. lia.
Qed.

Lemma interpret_wellFormed (f : Facts.t) :
  exists r, interpret f = Return r /\ WellFormed r.
Proof.
  the_report f.
  pose proof (Shape_lengths S) as (Lsv & Lcs & Lth & Ltc).
  destruct (Shape_categories S)
    as ((T1 & _ & n1 & _ & E1 & _) & (T2 & _ & n2 & _ & E2 & _)
        & (T3 & _ & n3 & _ & E3 & _)).
  destruct (shape_report S) as (areas & Hareas & E).
  rewrite E1, E2, E3, weakestStrongest_Finite in Hareas.
  injection Hareas as <-.
  constructor.
  - rewrite E. reflexivity.
  - rewrite E. apply summaryActions_length.
  - rewrite E. cbn [reportOf SeoReport.score].
    destruct (@aggregate_exact (fiveSections sv cs th tc)) as (n & En & _).
    + rewrite allMetrics_fiveSections, !length_app, Lsv, Lth, Ltc. simpl. lia.
    + now exists n.
  - repeat apply Forall_cons; try apply Forall_nil;
      (split; [eexists; eassumption|]);
      rewrite ?T1, ?T2, ?T3, ?length_app, ?Lsv, ?Lth, ?Ltc; simpl; lia.
  - rewrite E.
    cbn [reportOf SeoReport.seoBreakdown SeoBreakdown.summary
         SeoBreakdown.weakestArea SeoBreakdown.strongestArea
         SeoBreakdown.recommendedFocus].
    repeat apply Forall_cons; try apply Forall_nil;
      first [ eapply Lowest_isArea; apply firstLowest_Lowest
            | eapply Highest_isArea; apply lastHighest_Highest ].
Qed.

(** On fact records, that is on inputs of which every field is absent or
    has its declared type, the interpreter is total: whichever fields are
    absent, it returns a report, never throws, and the report is well
    formed, its aggregate score and its category scores being integers
    (no [NaN]: no category is empty, and the average is taken over at
    least one metric).  Absent fields count as their defaults: the report
    is that of the record with the defaults filled in.  With no field at
    all (the empty object), and likewise when the facts themselves are
    [undefined] or [null], the report is still returned. *)
Lemma interpret_total :
  (forall f : Facts.t, exists r, interpret f = Return r /\ WellFormed r)
  /\ (forall f : Facts.t, interpret (withDefaults f) = interpret f)
  /\ (exists r,
        interpret Facts.empty = Return r
        /\ toValue Facts.empty = VObj []
        /\ interpretSeoMetrics VUndefined = Return r
        /\ interpretSeoMetrics VNull = Return r).
Proof.
  split; [|split].
  - intros f.
    destruct (interpret_wellFormed f) as (r & Hr & W).
    exists r. split; [exact Hr | exact W].
  - exact interpret_withDefaults.
  - eexists. split; [vm_compute; reflexivity|].
    split; [reflexivity|]. split; vm_compute; reflexivity.
Qed.

(** C9.  The interpreter is meant to be total, every missing or
    malformed field being replaced by its default, and on one input it is
    not.  Where the image statistics are [null], [get] does not put the
    default [{ total: 0, missing: 0 }] in their place: its test is
    [o[key] !== undefined], which [null] passes, so [altStats] is [null]
    and reading [altStats.total] throws.  The same helper does replace
    the statistics when they are absent or [undefined], and also when the
    [null] sits one or two levels higher, in [images] or in [onpage]
    (there [o &&] catches it): the report is then that of the empty
    facts.  On every fact record the interpreter returns a well-formed
    report. *)
Theorem null_altStats_is_not_defaulted :
  get (VObj [("onpage", VObj [("images", VObj [("altStats", VNull)])])])
      "onpage.images.altStats" (VObj [("total", VNum 0); ("missing", VNum 0)])
  = VNull
  /\ interpretSeoMetrics
       (VObj [("onpage", VObj [("images", VObj [("altStats", VNull)])])])
     = Throw
  /\ get (VObj [("onpage", VObj [("images", VNull)])])
         "onpage.images.altStats"
         (VObj [("total", VNum 0); ("missing", VNum 0)])
     = VObj [("total", VNum 0); ("missing", VNum 0)]
  /\ interpretSeoMetrics
       (VObj [("onpage", VObj [("images", VObj [("altStats", VUndefined)])])])
     = interpret Facts.empty
  /\ interpretSeoMetrics (VObj [("onpage", VObj [("images", VObj [])])])
     = interpret Facts.empty
  /\ interpretSeoMetrics (VObj [("onpage", VObj [("images", VNull)])])
     = interpret Facts.empty
  /\ interpretSeoMetrics (VObj [("onpage", VNull)]) = interpret Facts.empty
  /\ (forall f : Facts.t, exists r, interpret f = Return r /\ WellFormed r).
Proof.
  split; [reflexivity|]. split; [reflexivity|]. split; [reflexivity|].
  do 4 (split; [vm_compute; reflexivity|]).
  exact interpret_wellFormed.
Qed.

(* ================================================================== *)
(** ** Further properties: the helper [get] *)
(* ================================================================== *)

Lemma split_nonempty (sep : ascii) (s : string) : split sep s <> [].
Proof.
  destruct s as [|c rest]; simpl; [discriminate|].
  destruct (Ascii.eqb c sep); [discriminate|].
  destruct (split sep rest); discriminate.
Qed.


Lemma split_descend (k rest : string) :
  dotfree k = true ->
  split "." (k ++ "." ++ rest)%string = k :: split "." rest.
Proof.
  induction k as [|c k IH]; simpl; [reflexivity|].
  intros H. apply andb_prop in H. destruct H as (Hc & Hk).
  apply negb_true_iff in Hc. rewrite Hc. simpl in IH. rewrite (IH Hk).
  reflexivity.
Qed.



(** X2. Descending one level: the rest of the path is read from the value
    bound to the first key, and from the default itself when that value is
    [undefined]. *)
Theorem get_descend (k path : string) (o d : value)
    (rest : list (string * value)) :
  dotfree k = true ->
  get (VObj ((k, o) :: rest)) (k ++ "." ++ path)%string d
  = get (if is_defined o then o else d) path d.
Proof.
  intros H. unfold get. rewrite (split_descend k path H).
  cbn [fold_left ToBoolean read lookup andb]. rewrite String.eqb_refl.
  reflexivity.
Qed.

Lemma get_descend_witness :
  get (VObj [("a", VUndefined)]) "a.total" (VObj [("total", VNum 7)])
  = get (VObj [("total", VNum 7)]) "total" (VObj [("total", VNum 7)]).
Proof.
  exact (get_descend "a" "total" VUndefined (VObj [("total", VNum 7)]) []
           eq_refl).
Defined.

(** The first step of [get] on a value that is not an object falls back to
    the default, as it does on the empty object. *)
Lemma get_not_object (o : value) (path : string) (d : value) :
  is_object o = false -> get o path d = get (VObj []) path d.
Proof.
  intros H. unfold get.
  destruct (split "." path) as [|k ks] eqn:E;
    [exfalso; exact (split_nonempty _ _ E)|].
  cbn [fold_left]. f_equal.
  destruct o as [| |b|n|props]; try discriminate H; cbn [read is_defined];
    now rewrite andb_false_r.
Qed.

(** Folding the steps of [get] from a value that is not [undefined], or
    over at least one key, ends in a value that is not [undefined] when
    the default is not [undefined]. *)
Lemma steps_defined (d : value) (ks : list string) (o : value) :
  is_defined d = true ->
  ks <> [] \/ is_defined o = true ->
  is_defined
    (fold_left
       (fun o key =>
          if ToBoolean o && is_defined (read o key) then read o key else d)
       ks o) = true.
Proof.
  intros Hd. revert o.
  induction ks as [|k ks IH]; intros o' [H|H]; simpl.
  - now elim H.
  - exact H.
  - apply IH. right.
    destruct (ToBoolean o' && is_defined (read o' k)) eqn:E; [|exact Hd].
    now apply andb_prop in E.
  - apply IH. right.
    destruct (ToBoolean o' && is_defined (read o' k)) eqn:E; [|exact Hd].
    now apply andb_prop in E.
Qed.

(** X3. [get] never yields [undefined] when its default is not
    [undefined]: every step either reads a value that is not [undefined]
    or falls back to the default. *)
Theorem get_is_defined (o : value) (path : string) (d : value) :
  is_defined d = true -> is_defined (get o path d) = true.
Proof.
  intros Hd. unfold get.
  apply steps_defined; [exact Hd|]. left. apply split_nonempty.
Qed.

Lemma get_is_defined_witness :
  is_defined (get VUndefined "onpage.title.length" (VNum 0)) = true.
Proof. exact (get_is_defined VUndefined "onpage.title.length" (VNum 0) eq_refl). Defined.

(* ================================================================== *)
(** ** Further properties: the interpreter on any value *)
(* ================================================================== *)

Lemma searchVisibility_length (data : value) :
  List.length (searchVisibility data) = 3%nat.
Proof.
  unfold searchVisibility. cbv zeta. rewrite !push_if.
  unfold push. now rewrite !length_app.
Qed.

Lemma technicalHealth_length (data : value) :
  List.length (technicalHealth data) = 4%nat.
Proof.
  unfold technicalHealth, push. cbv zeta. now rewrite !length_app.
Qed.

Lemma trustCredibility_length (data : value) :
  List.length (trustCredibility data) = 2%nat.
Proof.
  unfold trustCredibility, push. cbv zeta. now rewrite !length_app.
Qed.

(** The content section on any value: it throws when the image statistics
    resolve to [null], and has two or three metrics otherwise. *)
Lemma contentStrength_any (data : value) :
  let altStats :=
    get data "onpage.images.altStats"
        (VObj [("total", VNum 0); ("missing", VNum 0)]) in
  (altStats = VNull /\ contentStrength data = Throw)
  \/ (altStats <> VNull
      /\ exists cs, contentStrength data = Return cs
                    /\ (2 <= List.length cs <= 3)%nat).
Proof.
  intros altStats.
  assert (Hdef : is_defined altStats = true)
    by (unfold get; apply steps_defined; [reflexivity|];
        left; apply split_nonempty).
  unfold contentStrength. cbv zeta. rewrite !push_if. fold altStats.
  match goal with
  | |- context [push ?l {| title := "Image accessibility";
                           status := good;
                           plainExplanation := _;
                           whyItMatters := _;
                           action := _ |}] =>
      assert (Hbase : List.length l = 2%nat)
        by (unfold push; now rewrite !length_app);
      set (base := l) in *
  end.
  clearbody base.
  destruct altStats as [| |b|n|props] eqn:E; try discriminate Hdef.
  - left. split; reflexivity.
  - right. split; [discriminate|]. cbn. eexists. split; [reflexivity | lia].
  - right. split; [discriminate|]. cbn. eexists. split; [reflexivity | lia].
  - right. split; [discriminate|].
    cbn [member read bind].
    destruct (js_gt (lookup props "total") 0); cbn [bind];
      [destruct (js_gt (lookup props "missing") 0); cbn [bind]|];
      eexists; (split; [reflexivity|]);
      unfold push; rewrite ?length_app, Hbase; simpl; lia.
Qed.





(** A report assembled from sections of the sizes the interpreter builds
    is well formed. *)
Lemma reportOf_wellFormed (sv cs th tc : list MetricResult.t)
    (areas : SeoBreakdown.summary_t) :
  List.length sv = 3%nat -> (2 <= List.length cs <= 3)%nat ->
  List.length th = 4%nat -> List.length tc = 2%nat ->
  weakestStrongest
    (SeoBreakdownCategory.score
       (calculateCat (sv ++ cs) "On-page SEO" "Content and keyword optimization"))
    (SeoBreakdownCategory.score
       (calculateCat th "Technical SEO" "Speed, crawlability, and indexability"))
    (SeoBreakdownCategory.score
       (calculateCat (tc ++ growthSignals) "Authority"
          "Links, trust, and domain strength"))
  = Return areas ->
  WellFormed (reportOf sv cs th tc areas)
  /\ (exists n, SeoReport.score (reportOf sv cs th tc areas) = Finite n
                /\ 0 <= n <= 100)
  /\ Forall (fun c => exists s, SeoBreakdownCategory.score c = Finite s
                                /\ 15 <= s <= 95)
       [ SeoBreakdown.onPage (SeoReport.seoBreakdown (reportOf sv cs th tc areas));
         SeoBreakdown.technical (SeoReport.seoBreakdown (reportOf sv cs th tc areas));
         SeoBreakdown.authority (SeoReport.seoBreakdown (reportOf sv cs th tc areas)) ].
Proof.
  intros Lsv Lcs Lth Ltc Hareas.
  assert (C1 : scoredFrom
                 (calculateCat (sv ++ cs) "On-page SEO"
                    "Content and keyword optimization") (sv ++ cs))
    by (apply calculateCat_scoredFrom; rewrite length_app; lia).
  assert (C2 : scoredFrom
                 (calculateCat th "Technical SEO"
                    "Speed, crawlability, and indexability") th)
    by (apply calculateCat_scoredFrom; lia).
  assert (C3 : scoredFrom
                 (calculateCat (tc ++ growthSignals) "Authority"
                    "Links, trust, and domain strength") (tc ++ growthSignals))
    by (apply calculateCat_scoredFrom; rewrite length_app, Ltc; simpl; lia).
  destruct C1 as (T1 & _ & n1 & _ & E1 & _).
  destruct C2 as (T2 & _ & n2 & _ & E2 & _).
  destruct C3 as (T3 & _ & n3 & _ & E3 & _).
  rewrite E1, E2, E3, weakestStrongest_Finite in Hareas.
  injection Hareas as <-.
  assert (Hlen : (1 <= List.length (allMetrics (fiveSections sv cs th tc)) <= 14)%nat).
  { rewrite allMetrics_fiveSections, !length_app, Lsv, Lth, Ltc. simpl. lia. }
  destruct (aggregate_exact _ Hlen) as (n & En & R).
  split; [constructor|split].
  - reflexivity.
  - apply summaryActions_length.
  - now exists n.
  - cbn [reportOf SeoReport.seoBreakdown SeoBreakdown.onPage
         SeoBreakdown.technical SeoBreakdown.authority].
    repeat apply Forall_cons; try apply Forall_nil;
      (split; [eexists; eassumption|]);
      rewrite ?T1, ?T2, ?T3, ?length_app, ?Lsv, ?Lth, ?Ltc; simpl; lia.
  - cbn [reportOf SeoReport.seoBreakdown SeoBreakdown.summary
         SeoBreakdown.weakestArea SeoBreakdown.strongestArea
         SeoBreakdown.recommendedFocus].
    repeat apply Forall_cons; try apply Forall_nil;
      first [ eapply Lowest_isArea; apply firstLowest_Lowest
            | eapply Highest_isArea; apply lastHighest_Highest ].
  - exists n. split; [exact En|].
    destruct (sumPoints_tens (allMetrics (fiveSections sv cs th tc)))
      as (k & Ek & Hk).
    apply (rounds_to_bounds
             (num := sumPoints (allMetrics (fiveSections sv cs th tc)))
             (den := Z.of_nat (List.length (allMetrics (fiveSections sv cs th tc)))));
      [lia | lia | exact R].
  - cbn [reportOf SeoReport.seoBreakdown SeoBreakdown.onPage
         SeoBreakdown.technical SeoBreakdown.authority].
    repeat apply Forall_cons; try apply Forall_nil;
      eexists; (split; [eassumption | lia]).
Qed.

(** X5. Whatever the input is, a record of facts or not, a report that
    the interpreter returns is well formed: five sections in order, one to
    four actions, an integer aggregate score between 0 and 100, integer
    category scores between 15 and 95 over categories that are not empty,
    areas among the three keys, and the constant growth signals as the
    fifth section. *)
Theorem returned_report_wellFormed (data : value) (r : SeoReport.t) :
  interpretSeoMetrics data = Return r ->
  WellFormed r
  /\ (exists n, SeoReport.score r = Finite n /\ 0 <= n <= 100)
  /\ Forall (fun c => exists s, SeoBreakdownCategory.score c = Finite s
                                /\ 15 <= s <= 95)
       [ SeoBreakdown.onPage (SeoReport.seoBreakdown r);
         SeoBreakdown.technical (SeoReport.seoBreakdown r);
         SeoBreakdown.authority (SeoReport.seoBreakdown r) ]
  /\ sectionMetrics r "Growth signals" = growthSignals.
Proof.
  intros Hr.
  destruct (contentStrength_any data) as [(_ & Hcs)|(_ & cs & Hcs & Lcs)].
  - unfold interpretSeoMetrics in Hr. rewrite Hcs in Hr. discriminate Hr.
  - destruct (interpretSeoMetrics_returns _ Hcs) as (areas & Hareas & E).
    rewrite E in Hr. injection Hr as <-.
    destruct (@reportOf_wellFormed (searchVisibility data) cs
                (technicalHealth data) (trustCredibility data) areas
                (searchVisibility_length data) Lcs
                (technicalHealth_length data) (trustCredibility_length data)
                Hareas) as (W & S & C).
    repeat split; try assumption; apply W.
Qed.

Lemma returned_report_wellFormed_witness :
  exists r,
    interpretSeoMetrics (VNum 7) = Return r
    /\ WellFormed r
    /\ sectionMetrics r "Growth signals" = growthSignals.
Proof.
  eexists. split; [vm_compute; reflexivity|].
  split; apply (@returned_report_wellFormed (VNum 7)); vm_compute; reflexivity.
Defined.

(** X6. An input that is not an object (the facts being [undefined],
    [null], a number or a boolean) is read as the empty object: the report
    is that of the facts with no field. *)
Theorem interpretSeoMetrics_not_object (data : value) :
  is_object data = false ->
  interpretSeoMetrics data = interpret Facts.empty.
Proof.
  intros H.
  assert (G : forall path d, get data path d = get (toValue Facts.empty) path d)
    by (intros path d; exact (get_not_object _ path d H)).
  assert (Esv : searchVisibility data = searchVisibility (toValue Facts.empty))
    by (unfold searchVisibility; now rewrite !G).
  assert (Ecs : contentStrength data = contentStrength (toValue Facts.empty))
    by (unfold contentStrength; now rewrite !G).
  assert (Eth : technicalHealth data = technicalHealth (toValue Facts.empty))
    by (unfold technicalHealth; now rewrite !G).
  assert (Etc : trustCredibility data = trustCredibility (toValue Facts.empty))
    by (unfold trustCredibility; now rewrite !G).
  unfold interpret, interpretSeoMetrics.
  now rewrite Esv, Ecs, Eth, Etc.
Qed.

Lemma interpretSeoMetrics_not_object_witness :
  interpretSeoMetrics (VBool true) = interpret Facts.empty.
Proof. exact (interpretSeoMetrics_not_object (VBool true) eq_refl). Defined.

(* ================================================================== *)
(** ** Further properties: the rules of the other metrics *)
(* ================================================================== *)

Lemma sectionMetrics_of_shape (f : Facts.t) (r : SeoReport.t)
    (sv cs th tc : list MetricResult.t) :
  Shape f r sv cs th tc ->
  sectionMetrics r "Search visibility" = sv
  /\ sectionMetrics r "Content strength" = cs
  /\ sectionMetrics r "Technical health" = th
  /\ sectionMetrics r "Trust & credibility" = tc
  /\ sectionMetrics r "Growth signals" = growthSignals.
Proof.
  intros S. destruct (shape_report S) as (areas & _ & ->).
  apply sectionMetrics_reportOf.
Qed.

(** X7. For every fact record, the search section has three metrics in
    the order title, meta description, social preview.  The meta
    description is critical when it is missing, a warning when its length
    is below 100 or above 160, and good otherwise (100 and 160 are good);
    the social preview is good when the Open Graph flag is set and a
    warning when it is not. *)
Theorem search_visibility_rules (f : Facts.t) :
  exists r,
    interpret f = Return r
    /\ map status (sectionMetrics r "Search visibility")
       = [ Rules.title (Facts.titleExists f) (Facts.titleLen f);
           (if negb (Facts.metaExists f) then critical
            else if (Facts.metaLen f <? 100) || (160 <? Facts.metaLen f)
                 then warning
                 else good);
           (if Facts.ogPresent f then good else warning) ].
Proof.
  the_report f.
  destruct (sectionMetrics_of_shape S) as (-> & _).
  exact (shape_sv S).
Qed.

(** X8. For every fact record, the content section starts with the
    headline and the content depth.  The headline is critical when the H1
    count is exactly 0, a warning when it is above 1 and good otherwise;
    the depth is critical below 300 words, a warning below 600 and good
    from 600 on. *)
Theorem content_strength_rules (f : Facts.t) :
  exists r,
    interpret f = Return r
    /\ firstn 2 (map status (sectionMetrics r "Content strength"))
       = [ (if Facts.h1 f =? 0 then critical
            else if 1 <? Facts.h1 f then warning
            else good);
           (if Facts.words f <? 300 then critical
            else if Facts.words f <? 600 then warning
            else good) ].
Proof.
  the_report f.
  destruct (sectionMetrics_of_shape S) as (_ & -> & _).
  rewrite (shape_cs S). reflexivity.
Qed.

(** X9. For every fact record, the technical section has four metrics:
    HTTPS and mobile friendliness are good when their flag is set and
    critical otherwise, the indexing lock is critical when [noindex] is
    set and good otherwise, and the sitemap is good when present and only
    a warning when it is not. *)
Theorem technical_health_rules (f : Facts.t) :
  exists r,
    interpret f = Return r
    /\ map status (sectionMetrics r "Technical health")
       = [ (if Facts.isHttps f then good else critical);
           (if Facts.isMobile f then good else critical);
           (if Facts.noIndex f then critical else good);
           (if Facts.hasSitemap f then good else warning) ].
Proof.
  the_report f.
  destruct (sectionMetrics_of_shape S) as (_ & _ & -> & _).
  rewrite (shape_th S). unfold Rules.flag.
  now destruct (Facts.noIndex f).
Qed.

(** X10. For every fact record, the trust section has two metrics, never
    critical: internal linking is good above 5 links and a warning up to
    5, 0 included; structured data is good when detected and a warning
    otherwise. *)
Theorem trust_credibility_rules (f : Facts.t) :
  exists r,
    interpret f = Return r
    /\ map status (sectionMetrics r "Trust & credibility")
       = [ (if 5 <? Facts.internalCount f then good else warning);
           (if Facts.schema f then good else warning) ].
Proof.
  the_report f.
  destruct (sectionMetrics_of_shape S) as (_ & _ & _ & -> & _).
  exact (shape_tc S).
Qed.

(** X11. For every fact record, the report has 13 metrics, and a 14th,
    the image entry, exactly when the page has images. *)
Theorem metric_count (f : Facts.t) :
  exists r,
    interpret f = Return r
    /\ List.length (allMetrics (SeoReport.sections r))
       = if 0 <? Facts.imagesTotal f then 14%nat else 13%nat.
Proof.
  the_report f.
  pose proof (Shape_lengths S) as (Lsv & _ & Lth & Ltc).
  pose proof (map_length_eq _ _ (shape_cs S)) as Lcs.
  destruct (shape_report S) as (areas & _ & ->).
  cbn [reportOf SeoReport.sections].
  rewrite allMetrics_fiveSections, !length_app, Lsv, Lcs, Lth, Ltc.
  unfold Rules.images. now destruct (0 <? Facts.imagesTotal f).
Qed.

(* ================================================================== *)
(** ** Further properties: the scores *)
(* ================================================================== *)

(** X12. With no metric at all, in no section or in empty sections, the
    aggregate score is [NaN]: [calculateAggregatedScore] divides 0 by 0
    and has no guard of its own. *)
Theorem aggregate_of_no_metric (sections : list SeoSection.t) :
  allMetrics sections = [] -> calculateAggregatedScore sections = NaN.
Proof.
  intros H. rewrite calculateAggregatedScore_average, H.
  vm_compute. reflexivity.
Qed.

Lemma aggregate_of_no_metric_witness :
  calculateAggregatedScore
    [ {| name := "Search visibility"; metrics := [] |};
      {| name := "Growth signals"; metrics := [] |} ] = NaN.
Proof.
  exact (@aggregate_of_no_metric
           [ {| name := "Search visibility"; metrics := [] |};
             {| name := "Growth signals"; metrics := [] |} ] eq_refl).
Defined.

Lemma noWorse_length (ms ms' : list MetricResult.t) :
  noWorse ms ms' -> List.length ms = List.length ms'.
Proof. apply Forall2_length. Qed.

Lemma noWorse_sumPoints (ms ms' : list MetricResult.t) :
  noWorse ms ms' -> sumPoints ms <= sumPoints ms'.
Proof.
  induction 1 as [|m m' ms ms' H _ IH]; simpl; [lia|].
  fold (sumPoints ms). fold (sumPoints ms'). lia.
Qed.

Lemma rounds_to_monotone (num num' den n n' : Z) :
  0 < den -> num <= num' ->
  rounds_to num den n -> rounds_to num' den n' -> n <= n'.
Proof. unfold rounds_to. intros Hd Hn H H'. nia. Qed.

(** X13. Improving metrics never lowers the aggregate score: of two
    reports with the same number of metrics, at most 14, of which the
    second is metric by metric at least as healthy as the first, the
    second has at least the score of the first. *)
Theorem aggregate_monotone (before after : list SeoSection.t) :
  noWorse (allMetrics before) (allMetrics after) ->
  (1 <= List.length (allMetrics before) <= 14)%nat ->
  exists n n',
    calculateAggregatedScore before = Finite n
    /\ calculateAggregatedScore after = Finite n'
    /\ n <= n'.
Proof.
  intros H Hlen.
  pose proof (noWorse_length H) as L.
  pose proof (noWorse_sumPoints H) as P.
  destruct (aggregate_exact _ Hlen) as (n & E & R).
  assert (Hlen' : (1 <= List.length (allMetrics after) <= 14)%nat) by lia.
  destruct (aggregate_exact _ Hlen') as (n' & E' & R').
  exists n, n'. split; [exact E|]. split; [exact E'|].
  rewrite <- L in R'.
  apply (rounds_to_monotone (num := sumPoints (allMetrics before))
           (num' := sumPoints (allMetrics after))
           (den := Z.of_nat (List.length (allMetrics before))));
    [lia | exact P | exact R | exact R'].
Qed.

Lemma aggregate_monotone_witness :
  let m s := {| title := "t"; status := s; plainExplanation := "p";
                whyItMatters := "w"; action := "a" |} in
  exists n n',
    calculateAggregatedScore [ {| name := "s"; metrics := [m critical; m warning] |} ]
    = Finite n
    /\ calculateAggregatedScore [ {| name := "s"; metrics := [m good; m warning] |} ]
       = Finite n'
    /\ n <= n'.
Proof.
  intros m.
  apply aggregate_monotone.
  - repeat constructor; simpl; lia.
  - simpl. lia.
Defined.

Lemma noWorse_of_statuses (ms ms' : list MetricResult.t) :
  Forall2 (fun s s' => points s <= points s') (map status ms) (map status ms') ->
  noWorse ms ms'.
Proof.
  revert ms'. induction ms as [|m ms IH]; intros [|m' ms'] H;
    inversion H; subst; constructor; auto.
  now apply IH.
Qed.

Lemma noWorse_same_statuses (ms ms' : list MetricResult.t) :
  map status ms = map status ms' -> noWorse ms ms'.
Proof.
  intros E. apply noWorse_of_statuses. rewrite E.
  clear E. induction (map status ms') as [|s rest IH];
    [constructor | constructor; [lia | exact IH]].
Qed.

Lemma noWorse_app (a a' b b' : list MetricResult.t) :
  noWorse a a' -> noWorse b b' -> noWorse (a ++ b) (a' ++ b').
Proof. apply Forall2_app. Qed.

Lemma noWorse_refl (ms : list MetricResult.t) : noWorse ms ms.
Proof. now apply noWorse_same_statuses. Qed.

(** The score of a category grows with the number of good metrics. *)
Lemma calculateCat_monotone (ms ms' : list MetricResult.t) (l d : string) :
  (1 <= List.length ms <= 39)%nat ->
  List.length ms = List.length ms' ->
  (List.length (filter isGood ms) <= List.length (filter isGood ms'))%nat ->
  exists s s',
    SeoBreakdownCategory.score (calculateCat ms l d) = Finite s
    /\ SeoBreakdownCategory.score (calculateCat ms' l d) = Finite s'
    /\ s <= s'.
Proof.
  intros Hlen L P.
  destruct (@calculateCat_nonempty ms l d Hlen) as (n & R & ->).
  assert (Hlen' : (1 <= List.length ms' <= 39)%nat) by lia.
  destruct (@calculateCat_nonempty ms' l d Hlen') as (n' & R' & ->).
  cbn [SeoBreakdownCategory.score].
  do 2 eexists. split; [reflexivity|]. split; [reflexivity|].
  rewrite <- L in R'.
  assert (n <= n').
  { apply (rounds_to_monotone
             (num := 100 * Z.of_nat (List.length (filter isGood ms)))
             (num' := 100 * Z.of_nat (List.length (filter isGood ms')))
             (den := Z.of_nat (List.length ms))); [lia | lia | exact R | exact R']. }
  lia.
Qed.

(** X14. Turning HTTPS on never lowers a score: for every fact record,
    the aggregate score and the technical score of the record with
    [technical.https] set are at least those of the record itself. *)
Theorem https_never_lowers (f : Facts.t) :
  exists r r' n n' t t',
    interpret f = Return r
    /\ interpret (secured f) = Return r'
    /\ SeoReport.score r = Finite n
    /\ SeoReport.score r' = Finite n'
    /\ n <= n'
    /\ SeoBreakdownCategory.score
         (SeoBreakdown.technical (SeoReport.seoBreakdown r)) = Finite t
    /\ SeoBreakdownCategory.score
         (SeoBreakdown.technical (SeoReport.seoBreakdown r')) = Finite t'
    /\ t <= t'.
Proof.
  destruct (interpret_shape f) as (r & sv & cs & th & tc & Hr & S).
  destruct (interpret_shape (secured f)) as (r' & sv' & cs' & th' & tc' & Hr' & S').
  pose proof (Shape_lengths S) as (Lsv & Lcs & Lth & Ltc).
  pose proof (Shape_lengths S') as (Lsv' & Lcs' & Lth' & Ltc').
  assert (Nsv : noWorse sv sv')
    by (apply noWorse_same_statuses; rewrite (shape_sv S), (shape_sv S');
        reflexivity).
  assert (Ncs : noWorse cs cs')
    by (apply noWorse_same_statuses; rewrite (shape_cs S), (shape_cs S');
        reflexivity).
  assert (Ntc : noWorse tc tc')
    by (apply noWorse_same_statuses; rewrite (shape_tc S), (shape_tc S');
        reflexivity).
  assert (Hth : map status th'
                = good :: tl (map status th)).
  { rewrite (shape_th S), (shape_th S'). reflexivity. }
  assert (Nth : noWorse th th').
  { apply noWorse_of_statuses. rewrite Hth, (shape_th S).
    unfold Rules.flag. cbn [tl].
    constructor; [destruct (Facts.isHttps f); simpl; lia|].
    repeat (constructor; [lia|]). constructor. }
  assert (Gth : (List.length (filter isGood th)
                 <= List.length (filter isGood th'))%nat).
  { assert (count : forall ms, List.length (filter isGood ms)
                               = List.length (filter (fun s => Status_eqb s good)
                                                     (map status ms))).
    { induction ms as [|m ms IH]; simpl; [reflexivity|].
      unfold isGood at 1. destruct (Status_eqb (status m) good); simpl; now rewrite IH. }
    rewrite !count, Hth, (shape_th S). unfold Rules.flag.
    destruct (Facts.isHttps f); simpl; lia. }
  destruct (shape_report S) as (areas & _ & E).
  destruct (shape_report S') as (areas' & _ & E').
  assert (Nall : noWorse (allMetrics (fiveSections sv cs th tc))
                         (allMetrics (fiveSections sv' cs' th' tc'))).
  { rewrite !allMetrics_fiveSections.
    do 4 (apply noWorse_app; [assumption|]). apply noWorse_refl. }
  assert (Hlen : (1 <= List.length (allMetrics (fiveSections sv cs th tc))
                  <= 14)%nat).
  { rewrite allMetrics_fiveSections, !length_app, Lsv, Lth, Ltc. simpl. lia. }
  pose proof (noWorse_length Nall) as Lall.
  destruct (aggregate_exact _ Hlen) as (n & En & Rn).
  destruct (aggregate_exact (fiveSections sv' cs' th' tc'))
    as (n' & En' & Rn'); [lia|].
  rewrite <- Lall in Rn'.
  assert (Hn : n <= n').
  { apply (rounds_to_monotone
             (num := sumPoints (allMetrics (fiveSections sv cs th tc)))
             (num' := sumPoints (allMetrics (fiveSections sv' cs' th' tc')))
             (den := Z.of_nat
                       (List.length (allMetrics (fiveSections sv cs th tc)))));
      [lia | exact (noWorse_sumPoints Nall) | exact Rn | exact Rn']. }
  destruct (@calculateCat_monotone th th' "Technical SEO"
              "Speed, crawlability, and indexability")
    as (t & t' & Et & Et' & Ht); [lia | lia | exact Gth |].
  exists r, r', n, n', t, t'.
  rewrite E, E'.
  cbn [reportOf SeoReport.score SeoReport.seoBreakdown SeoBreakdown.technical].
  rewrite <- E, <- E'.
  repeat split; assumption.
Qed.

(** X15. Between 1 and 39 metrics, a category in which every metric is
    good scores 95, not 100, with priority good, and a category in which
    none is good scores 15, not 0, with priority critical. *)
Theorem calculateCat_extremes (ms : list MetricResult.t) (l d : string) :
  (1 <= List.length ms <= 39)%nat ->
  (List.length (filter isGood ms) = List.length ms ->
   SeoBreakdownCategory.score (calculateCat ms l d) = Finite 95
   /\ SeoBreakdownCategory.priority (calculateCat ms l d) = Priority.good)
  /\ (filter isGood ms = [] ->
      SeoBreakdownCategory.score (calculateCat ms l d) = Finite 15
      /\ SeoBreakdownCategory.priority (calculateCat ms l d) = Priority.critical).
Proof.
  intros Hlen.
  destruct (@calculateCat_nonempty ms l d Hlen) as (n & R & ->).
  cbn [SeoBreakdownCategory.score SeoBreakdownCategory.priority].
  unfold rounds_to in R.
  assert (Ht : 1 <= Z.of_nat (List.length ms)) by lia.
  split; intros H; rewrite H in R.
  - set (t := Z.of_nat (List.length ms)) in *. clearbody t.
    assert (n <= 100) by nia. assert (100 <= n) by nia.
    replace n with 100 by lia. split; reflexivity.
  - cbn [List.length Z.of_nat] in R.
    set (t := Z.of_nat (List.length ms)) in *. clearbody t.
    assert (n <= 0) by nia. assert (0 <= n) by nia.
    replace n with 0 by lia. split; reflexivity.
Qed.

Lemma calculateCat_extremes_witness :
  SeoBreakdownCategory.score (calculateCat growthSignals "l" "d") = Finite 15
  /\ SeoBreakdownCategory.priority (calculateCat growthSignals "l" "d")
     = Priority.critical.
Proof.
  apply (@calculateCat_extremes growthSignals "l" "d"); [simpl; lia | reflexivity].
Defined.

(** X16. Whatever the three scores are, [NaN] and infinities included,
    the selection returns, the weakest and the strongest area are two
    different categories, also when all three scores are equal, and the
    recommended focus is the weakest area. *)
Theorem weakest_is_not_strongest (onPage technical authority : number) :
  exists summary,
    weakestStrongest onPage technical authority = Return summary
    /\ SeoBreakdown.weakestArea summary <> SeoBreakdown.strongestArea summary
    /\ SeoBreakdown.recommendedFocus summary = SeoBreakdown.weakestArea summary
    /\ isArea (SeoBreakdown.weakestArea summary)
    /\ isArea (SeoBreakdown.strongestArea summary).
Proof.
  unfold weakestStrongest.
  set (unsorted := categories onPage technical authority).
  pose proof (sort_Permutation byScore unsorted) as P.
  pose proof (sort_length byScore unsorted) as L.
  destruct (sort byScore unsorted) as [|x [|y [|z [|? ?]]]];
    try discriminate L.
  cbn [element nth_error bind].
  eexists. split; [reflexivity|].
  cbn [SeoBreakdown.weakestArea SeoBreakdown.strongestArea
       SeoBreakdown.recommendedFocus].
  pose proof (Permutation_map Entry.key P) as K.
  cbn [map unsorted categories Entry.key] in K.
  assert (N : NoDup [Entry.key x; Entry.key y; Entry.key z]).
  { apply (Permutation_NoDup (Permutation_sym K)).
    repeat constructor; simpl; intuition discriminate. }
  assert (In_x : In (Entry.key x) ["onPage"; "technical"; "authority"])
    by (apply (Permutation_in _ K); simpl; auto).
  assert (In_z : In (Entry.key z) ["onPage"; "technical"; "authority"])
    by (apply (Permutation_in _ K); simpl; auto).
  split; [|split; [reflexivity|]].
  - intros E. inversion N as [|? ? Hx _]; subst. apply Hx. rewrite E.
    simpl. auto.
  - unfold isArea. simpl in In_x, In_z. intuition auto.
Qed.

(* ================================================================== *)
(** ** Further properties: the route and the page *)
(* ================================================================== *)

(** On what the route hands over, the interpreter computes the report of
    the corresponding fact record. *)
Lemma interpretSeoMetrics_analysis (p : Page.t) :
  interpretSeoMetrics (analysis p) = interpret (pageFacts p).
Proof.
  assert (G : forall path d,
    In path [ "onpage.title.length"; "onpage.title.exists";
              "onpage.meta.exists"; "onpage.meta.length"; "onpage.og.hasOg";
              "onpage.headings.h1Count"; "onpage.content.wordCount";
              "onpage.images.altStats"; "technical.https";
              "technical.mobileFriendly"; "technical.noindex";
              "technical.sitemap"; "trust.internalLinks"; "trust.hasSchema" ] ->
    get (analysis p) path d = get (toValue (pageFacts p)) path d).
  { intros path d H. simpl in H.
    repeat (destruct H as [<-|H]; [reflexivity|]). destruct H. }
  assert (Esv : searchVisibility (analysis p)
                = searchVisibility (toValue (pageFacts p)))
    by (unfold searchVisibility; now rewrite !G by (simpl; tauto)).
  assert (Ecs : contentStrength (analysis p)
                = contentStrength (toValue (pageFacts p)))
    by (unfold contentStrength; now rewrite !G by (simpl; tauto)).
  assert (Eth : technicalHealth (analysis p)
                = technicalHealth (toValue (pageFacts p)))
    by (unfold technicalHealth; now rewrite !G by (simpl; tauto)).
  assert (Etc : trustCredibility (analysis p)
                = trustCredibility (toValue (pageFacts p)))
    by (unfold trustCredibility; now rewrite !G by (simpl; tauto)).
  unfold interpret, interpretSeoMetrics.
  now rewrite Esv, Ecs, Eth, Etc.
Qed.

(** X17. On what the route measured on a page, the interpreter returns
    the report of the page: the title metric is critical for an empty
    title, critical above 60 characters, a warning below 30 and good from
    30 to 60; the headline is critical without an H1, a warning with
    several and good with exactly one; and the report has an image entry
    exactly when the page has an image. *)
Theorem report_of_analysis (p : Page.t) :
  exists r,
    interpretSeoMetrics (analysis p) = Return r
    /\ titleStatus r
       = Some (if Nat.eqb (Page.titleLength p) 0 then critical
               else if (60 <? Page.titleLength p)%nat then critical
               else if (Page.titleLength p <? 30)%nat then warning
               else good)
    /\ hd_error (map status (sectionMetrics r "Content strength"))
       = Some (if Nat.eqb (Page.h1Count p) 0 then critical
               else if (1 <? Page.h1Count p)%nat then warning
               else good)
    /\ (imageEntries r <> [] <-> (0 < Page.totalImgs p)%nat).
Proof.
  rewrite interpretSeoMetrics_analysis.
  destruct (interpret_shape (pageFacts p)) as (r & sv & cs & th & tc & Hr & S).
  exists r. split; [exact Hr|].
  destruct (sectionMetrics_of_shape S) as (Esv & Ecs & _).
  unfold titleStatus, imageEntries. rewrite Esv, Ecs.
  pose proof (shape_sv S) as Hsv. pose proof (shape_cs S) as Hcs.
  pose proof (shape_images S) as Him.
  destruct p as [tlen mlen h1 nh2 nh3 og ti ma wc hs vp ni sm il sc].
  unfold Rules.title, Rules.headline, Rules.images in *.
  cbn [pageFacts Facts.titleExists Facts.titleLen Facts.h1 Facts.imagesTotal
       Facts.imagesMissing Facts.sub Facts.or_else Facts.onpage Facts.title
       Facts.exists_ Facts.length Facts.headings Facts.h1Count Facts.images
       Facts.altStats Facts.total Facts.missing Page.titleLength Page.h1Count
       Page.totalImgs] in *.
  split; [|split].
  - destruct sv as [|m sv']; [discriminate Hsv|].
    injection Hsv as Hm _. cbn [hd_error option_map]. rewrite Hm. f_equal.
    destruct (Nat.eqb_spec tlen 0), (Nat.ltb_spec 60 tlen),
      (Nat.ltb_spec tlen 30), (Z.ltb_spec 60 (Z.of_nat tlen)),
      (Z.ltb_spec (Z.of_nat tlen) 30);
      cbn [negb]; try reflexivity; lia.
  - rewrite Hcs. cbn [app hd_error]. f_equal.
    destruct (Nat.eqb_spec h1 0), (Nat.ltb_spec 1 h1),
      (Z.eqb_spec (Z.of_nat h1) 0), (Z.ltb_spec 1 (Z.of_nat h1));
      try reflexivity; lia.
  - destruct (Z.ltb_spec 0 (Z.of_nat ti)) as [Hpos|Hpos].
    + split; [intros _; lia|]. intros _ E. rewrite E in Him. discriminate Him.
    + split; [|lia]. intros Hne. elim Hne.
      destruct (filter _ cs); [reflexivity | discriminate Him].
Qed.

(** X18. Whatever the input, a score that [calculateScore] returns lies
    between 5 and 100 and is a multiple of 5: the penalties add up to 95
    at most (a title that is missing is not also counted as too short), so
    that [Math.max(0, score)] never changes the score. *)
Theorem calculateScore_range (data : value) (s : Z) :
  calculateScore data = Return s -> 5 <= s <= 100 /\ (5 | s).
Proof.
  unfold calculateScore. cbv zeta. intros H.
  destruct (dot3 data "onpage" "title" "exists") as [e|];
    cbn [bind] in H; [|discriminate H].
  assert (T : exists t, (t = 80 \/ t = 95 \/ t = 100)
    /\ (x <- Return t ;;
        metaExists <- dot3 data "onpage" "meta" "exists" ;;
        h1Exists <- dot3 data "onpage" "headings" "h1Exists" ;;
        h1Unique <- dot3 data "onpage" "headings" "h1Unique" ;;
        wordCount <- dot3 data "onpage" "content" "wordCount" ;;
        https <- dot2 data "technical" "https" ;;
        noindex <- dot2 data "technical" "noindex" ;;
        Return
          (Z.max 0
             (let a := if negb (ToBoolean metaExists) then x - 15 else x in
              let b := if negb (ToBoolean h1Exists) then a - 15 else a in
              let c := if negb (ToBoolean h1Unique) then b - 5 else b in
              let d := if js_lt wordCount 300 then c - 10 else c in
              let e := if negb (ToBoolean https) then d - 10 else d in
              if ToBoolean noindex then e - 20 else e))) = Return s).
  { destruct (negb (ToBoolean e)); [exists 80; split; [auto | exact H]|].
    destruct (dot3 data "onpage" "title" "length") as [l|];
      cbn [bind] in H; [|discriminate H].
    destruct (js_lt l 30); [exists 95; split; [auto | exact H]|].
    destruct (js_gt l 60); [exists 95 | exists 100]; (split; [auto | exact H]). }
  clear H. destruct T as (t & Ht & H). cbn [bind] in H.
  destruct (dot3 data "onpage" "meta" "exists") as [m|];
    cbn [bind] in H; [|discriminate H].
  destruct (dot3 data "onpage" "headings" "h1Exists") as [h|];
    cbn [bind] in H; [|discriminate H].
  destruct (dot3 data "onpage" "headings" "h1Unique") as [u|];
    cbn [bind] in H; [|discriminate H].
  destruct (dot3 data "onpage" "content" "wordCount") as [w|];
    cbn [bind] in H; [|discriminate H].
  destruct (dot2 data "technical" "https") as [hs|];
    cbn [bind] in H; [|discriminate H].
  destruct (dot2 data "technical" "noindex") as [ni|];
    cbn [bind] in H; [|discriminate H].
  injection H as <-. cbv zeta.
  destruct (negb (ToBoolean m)), (negb (ToBoolean h)), (negb (ToBoolean u)),
    (js_lt w 300), (negb (ToBoolean hs)), (ToBoolean ni);
    destruct Ht as [-> | [-> | ->]]; cbn;
    (split; [lia | apply Z.mod_divide; [lia | reflexivity]]).
Qed.

Lemma calculateScore_range_witness :
  5 <= 5 <= 100 /\ (5 | 5).
Proof.
  apply (@calculateScore_range
           (VObj [ ("onpage",
                     VObj [ ("title", VObj []); ("meta", VObj []);
                            ("headings", VObj []);
                            ("content", VObj [("wordCount", VNum 0)]) ]);
                   ("technical", VObj [("noindex", VBool true)]) ]) 5).
  reflexivity.
Defined.

(** X19. Unlike the interpreter, [calculateScore] has no defaults: when
    [data.onpage] is not an object, it throws. *)
Theorem calculateScore_needs_onpage (data : value) :
  is_object (read data "onpage") = false -> calculateScore data = Throw.
Proof.
  intros H. unfold calculateScore, dot3, dot2. cbv zeta.
  destruct data as [| |b|n|props]; try reflexivity;
    cbn [member bind] in *;
    destruct (read _ "onpage") as [| |b'|n'|props']; try discriminate H;
    reflexivity.
Qed.

Lemma calculateScore_needs_onpage_witness :
  calculateScore (VObj [("technical", VObj [("https", VBool true)])]) = Throw.
Proof. apply calculateScore_needs_onpage. reflexivity. Defined.

(** What the page and the earlier route compute on an analysed page, as
    functions of what was measured. *)
Lemma page_conditions (p : Page.t) :
  exists s ws m,
    calculateScore (analysis p) = Return s
    /\ generatedWarnings (analyzeOnPage p) (analyzeTechnical p) = Return ws
    /\ mapMetrics (analysis p) = Return m
    /\ s = 100 - fold_right Z.add 0 (map penalty ws)
    /\ ws
       = (if Nat.eqb (Page.titleLength p) 0 then ["Missing Title tag"]
          else if (Z.of_nat (Page.titleLength p) <? 30)
                  || (60 <? Z.of_nat (Page.titleLength p))
               then ["Title length should be between 30-60 characters"]
               else [])
         ++ (if Nat.eqb (Page.metaLength p) 0 then ["Missing Meta Description"]
             else [])
         ++ (if (0 <? Page.h1Count p)%nat then [] else ["Missing H1 tag"])
         ++ (if Nat.eqb (Page.h1Count p) 1 then []
             else ["Multiple H1 tags found"])
         ++ (if Z.of_nat (Page.wordCount p) <? 300
             then ["Low word count (less than 300 words)"] else [])
         ++ (if Page.isHttps p then [] else ["Site is not using HTTPS"])
         ++ (if Page.isNoIndex p
             then ["Page is blocked from indexing (noindex)"] else [])
    /\ Metrics.isTitleGood m
       = VBool (negb (Nat.eqb (Page.titleLength p) 0)
                && (30 <=? Z.of_nat (Page.titleLength p))
                && (Z.of_nat (Page.titleLength p) <=? 60))
    /\ Metrics.isDescGood m = VBool (negb (Nat.eqb (Page.metaLength p) 0))
    /\ Metrics.isHeadingsGood m = VBool (Nat.eqb (Page.h1Count p) 1)
    /\ Metrics.isMobGood m = VBool (Page.isHttps p)
    /\ Metrics.wc m = VNum (Z.of_nat (Page.wordCount p))
    /\ Metrics.headings m
       = (if (0 <? Page.h1Count p)%nat
          then if Nat.eqb (Page.h1Count p) 1 then "Well Structured"
               else "Multiple H1s"
          else "Missing H1")
    /\ Metrics.mob m
       = (if Page.isHttps p then "Secure (HTTPS)" else "Not Secure").
Proof.
  destruct p as [tlen mlen h1 nh2 nh3 og ti ma wc hs vp ni sm il sc].
  unfold calculateScore, generatedWarnings, mapMetrics, analysis,
    analyzeOnPage, analyzeTechnical, dot3, dot2.
  cbn [Page.titleLength Page.metaLength Page.h1Count Page.wordCount
       Page.isHttps Page.isNoIndex member read lookup bind String.eqb
       Ascii.eqb Bool.eqb ToBoolean js_lt js_gt js_ge js_le ToNumber].
  destruct (Nat.eqb tlen 0); cbn [negb bind andb];
    destruct (Z.of_nat tlen <? 30) eqn:Alt;
    destruct (60 <? Z.of_nat tlen) eqn:Agt;
    destruct (30 <=? Z.of_nat tlen) eqn:Age;
    destruct (Z.of_nat tlen <=? 60) eqn:Ale;
    try (exfalso; lia); cbn [negb bind andb orb];
    destruct (Nat.eqb mlen 0); cbn [negb bind];
    destruct h1 as [|[|h1]]; cbn [Nat.ltb Nat.leb Nat.eqb negb bind];
    destruct (Z.of_nat wc <? 300); destruct hs; destruct ni;
    cbn [negb bind]; do 3 eexists; repeat split.
Qed.

(** X20. On every analysed page, the score of the page is 100 minus the
    penalties of the warnings that the earlier route generates for it (20
    for a missing title, 5 for its length, 15 for a missing description,
    15 for a missing H1, 5 for the H1 not being unique, 10 for few words,
    10 without HTTPS, 20 for [noindex]): the score is 100 exactly when
    there is no warning. *)
Theorem score_and_warnings (p : Page.t) :
  exists s ws,
    calculateScore (analysis p) = Return s
    /\ generatedWarnings (analyzeOnPage p) (analyzeTechnical p) = Return ws
    /\ s = 100 - fold_right Z.add 0 (map penalty ws)
    /\ (s = 100 <-> ws = []).
Proof.
  destruct (page_conditions p)
    as (s & ws & m & Hs & Hws & _ & E & W & _).
  exists s, ws. split; [exact Hs|]. split; [exact Hws|]. split; [exact E|].
  split.
  - intros H100. rewrite H100 in E. clear Hs Hws H100.
    rewrite W in *. clear W.
    destruct (Nat.eqb (Page.titleLength p) 0),
      ((Z.of_nat (Page.titleLength p) <? 30)
       || (60 <? Z.of_nat (Page.titleLength p))),
      (Nat.eqb (Page.metaLength p) 0), (0 <? Page.h1Count p)%nat,
      (Nat.eqb (Page.h1Count p) 1), (Z.of_nat (Page.wordCount p) <? 300),
      (Page.isHttps p), (Page.isNoIndex p);
      try reflexivity; exfalso; vm_compute in E; discriminate E.
  - intros ->. exact E.
Qed.

Lemma In_when (b : bool) (x y : string) :
  In x (if b then [y] else []) <-> b = true /\ y = x.
Proof. destruct b; simpl; intuition discriminate. Qed.

Lemma In_unless (b : bool) (x y : string) :
  In x (if b then [] else [y]) <-> b = false /\ y = x.
Proof. destruct b; simpl; intuition discriminate. Qed.

(** X21. On every analysed page, the earlier route warns of "Multiple H1
    tags found" exactly when the number of H1 is not 1: a page with no H1
    at all gets this warning too, next to "Missing H1 tag", and the page
    takes 20 points off its score for the two. *)
Theorem multiple_h1_warning (p : Page.t) :
  exists s ws,
    calculateScore (analysis p) = Return s
    /\ generatedWarnings (analyzeOnPage p) (analyzeTechnical p) = Return ws
    /\ (In "Multiple H1 tags found" ws <-> Page.h1Count p <> 1%nat)
    /\ (In "Missing H1 tag" ws <-> Page.h1Count p = 0%nat)
    /\ (Page.h1Count p = 0%nat ->
        In "Missing H1 tag" ws /\ In "Multiple H1 tags found" ws /\ s <= 80).
Proof.
  destruct (page_conditions p)
    as (s & ws & m & Hs & Hws & _ & E & W & _).
  exists s, ws. split; [exact Hs|]. split; [exact Hws|].
  assert (Hmulti : In "Multiple H1 tags found" ws <-> Page.h1Count p <> 1%nat).
  { rewrite W, !in_app_iff, !In_when, !In_unless.
    destruct (Nat.eqb_spec (Page.h1Count p) 1) as [H1|H1];
      destruct (Nat.eqb (Page.titleLength p) 0);
      rewrite ?In_when; cbn [In];
      intuition (try discriminate; try congruence). }
  assert (Hmiss : In "Missing H1 tag" ws <-> Page.h1Count p = 0%nat).
  { rewrite W, !in_app_iff, !In_when, !In_unless.
    destruct (Nat.ltb_spec 0 (Page.h1Count p)) as [H0|H0];
      destruct (Nat.eqb (Page.titleLength p) 0);
      rewrite ?In_when; cbn [In];
      intuition (try discriminate; try lia). }
  split; [exact Hmulti|]. split; [exact Hmiss|].
  intros H0.
  assert (I1 : In "Missing H1 tag" ws) by (apply Hmiss; exact H0).
  assert (I2 : In "Multiple H1 tags found" ws) by (apply Hmulti; lia).
  split; [exact I1|]. split; [exact I2|].
  rewrite E. clear Hs Hws Hmulti Hmiss I1 I2. rewrite W.
  rewrite H0. cbn [Nat.ltb Nat.leb Nat.eqb].
  destruct (Nat.eqb (Page.titleLength p) 0),
    ((Z.of_nat (Page.titleLength p) <? 30)
     || (60 <? Z.of_nat (Page.titleLength p))),
    (Nat.eqb (Page.metaLength p) 0), (Z.of_nat (Page.wordCount p) <? 300),
    (Page.isHttps p), (Page.isNoIndex p); vm_compute; discriminate.
Qed.

(** X22. On every analysed page, the flags that [mapMetrics] shows agree
    with the report of the interpreter: the title flag is set exactly
    when the title metric is good, the headings flag exactly when the
    headline metric is good, the description flag exactly when the meta
    description is not critical (its length is not looked at), and the
    flag shown as [isMobGood] exactly when the connection-security metric
    is good; the mobile-friendliness of the page plays no part in it. *)
Theorem mapMetrics_agrees_with_report (p : Page.t) :
  exists m r,
    mapMetrics (analysis p) = Return m
    /\ interpretSeoMetrics (analysis p) = Return r
    /\ (Metrics.isTitleGood m = VBool true <-> titleStatus r = Some good)
    /\ (Metrics.isHeadingsGood m = VBool true
        <-> hd_error (map status (sectionMetrics r "Content strength"))
            = Some good)
    /\ (Metrics.isDescGood m = VBool true
        <-> nth_error (map status (sectionMetrics r "Search visibility")) 1
            <> Some critical)
    /\ (Metrics.isMobGood m = VBool true
        <-> hd_error (map status (sectionMetrics r "Technical health"))
            = Some good)
    /\ Metrics.isMobGood m = VBool (Page.isHttps p).
Proof.
  destruct (page_conditions p)
    as (s & ws & m & _ & _ & Hm & _ & _ & Mt & Md & Mh & Mm & _).
  pose proof (interpretSeoMetrics_analysis p) as Hi.
  destruct (interpret_shape (pageFacts p)) as (r & sv & cs & th & tc & Hr & S).
  rewrite <- Hi in Hr.
  exists m, r. split; [exact Hm|]. split; [exact Hr|].
  unfold titleStatus.
  destruct (sectionMetrics_of_shape S) as (-> & -> & -> & _).
  pose proof (shape_sv S) as Hsv. pose proof (shape_cs S) as Hcs.
  pose proof (shape_th S) as Hth.
  destruct sv as [|m1 [|m2 sv']]; try discriminate Hsv.
  destruct th as [|t1 th']; try discriminate Hth.
  rewrite Hcs, Mt, Md, Mh, Mm.
  injection Hsv as E1 E2 _. injection Hth as T1 _.
  cbn [sectionMetrics map hd_error nth_error option_map app].
  rewrite E1, E2, T1.
  destruct p as [tlen mlen h1 nh2 nh3 og ti ma wc hs vp ni sm il sc].
  unfold Rules.title, Rules.meta, Rules.headline, Rules.flag.
  cbn [pageFacts Facts.titleExists Facts.titleLen Facts.metaExists
       Facts.metaLen Facts.h1 Facts.isHttps Facts.sub Facts.or_else
       Facts.onpage Facts.technical Facts.title Facts.meta Facts.exists_
       Facts.length Facts.headings Facts.h1Count Facts.https
       Page.titleLength Page.metaLength Page.h1Count Page.isHttps].
  repeat split; try reflexivity.
  - destruct (Nat.eqb tlen 0); cbn [negb andb]; [discriminate|].
    destruct (Z.leb_spec 30 (Z.of_nat tlen)), (Z.leb_spec (Z.of_nat tlen) 60),
      (Z.ltb_spec 60 (Z.of_nat tlen)), (Z.ltb_spec (Z.of_nat tlen) 30);
      cbn [andb]; try reflexivity; try discriminate; lia.
  - destruct (Nat.eqb tlen 0); cbn [negb andb]; [discriminate|].
    destruct (Z.leb_spec 30 (Z.of_nat tlen)), (Z.leb_spec (Z.of_nat tlen) 60),
      (Z.ltb_spec 60 (Z.of_nat tlen)), (Z.ltb_spec (Z.of_nat tlen) 30);
      cbn [andb]; try reflexivity; try discriminate; lia.
  - destruct (Nat.eqb_spec h1 1), (Z.eqb_spec (Z.of_nat h1) 0),
      (Z.ltb_spec 1 (Z.of_nat h1)); try reflexivity; try discriminate; lia.
  - destruct (Nat.eqb_spec h1 1), (Z.eqb_spec (Z.of_nat h1) 0),
      (Z.ltb_spec 1 (Z.of_nat h1)); try reflexivity; try discriminate; lia.
  - destruct (Nat.eqb mlen 0); cbn [negb]; [discriminate|].
    destruct ((Z.of_nat mlen <? 100) || (160 <? Z.of_nat mlen)); discriminate.
  - destruct (Nat.eqb mlen 0); cbn [negb]; [intros H; now elim H | reflexivity].
  - destruct hs; [reflexivity | discriminate].
  - destruct hs; [reflexivity | discriminate].
Qed.

(* ================================================================== *)
(** ** Further properties: [formatUrl] *)
(* ================================================================== *)

Lemma dropPrefix_Some (prefix s rest : string) :
  dropPrefix prefix s = Some rest -> s = (prefix ++ rest)%string.
Proof.
  revert s. induction prefix as [|a prefix IH]; intros s H; simpl in *.
  - now injection H as ->.
  - destruct s as [|b s]; [discriminate H|].
    destruct (Ascii.eqb_spec a b) as [->|]; [|discriminate H].
    now rewrite (IH _ H).
Qed.

Lemma dropPrefix_append (prefix rest : string) :
  dropPrefix prefix (prefix ++ rest) = Some rest.
Proof.
  induction prefix as [|a prefix IH]; simpl; [reflexivity|].
  now rewrite Ascii.eqb_refl.
Qed.

Lemma dropPrefix_None (prefix s : string) :
  dropPrefix prefix s = None <-> String.prefix prefix s = false.
Proof.
  revert s. induction prefix as [|a prefix IH]; intros [|b s]; simpl.
  - split; intros H; discriminate H.
  - split; intros H; discriminate H.
  - tauto.
  - destruct (Ascii.eqb_spec a b) as [->|N].
    + destruct (ascii_dec b b) as [_|N']; [apply IH | now elim N'].
    + destruct (ascii_dec a b) as [E|_]; [contradiction | tauto].
Qed.

(** The second replace: one ["www."] goes when the text starts with it. *)
Lemma www_stripped (rest : string) :
  exists www,
    In www [EmptyString; "www."]
    /\ rest = (www ++ match dropPrefix "www." rest with
                      | Some h => h
                      | None => rest
                      end)%string
    /\ (www = EmptyString ->
        String.prefix "www." match dropPrefix "www." rest with
                             | Some h => h
                             | None => rest
                             end = false).
Proof.
  destruct (dropPrefix "www." rest) as [h|] eqn:Ew.
  - apply dropPrefix_Some in Ew. exists "www.".
    split; [simpl; auto|]. split; [exact Ew | discriminate].
  - apply dropPrefix_None in Ew. exists EmptyString.
    split; [simpl; auto|]. split; [reflexivity | intros _; exact Ew].
Qed.

(** X23. [formatUrl] removes from the start of the address one scheme,
    ["https://"] or ["http://"], when the address starts with one, then
    one ["www."] when what is left starts with it, and nothing else: the
    result is the only text that, after such a scheme and such a
    ["www."], gives the address back, where the scheme is left out only
    if the address starts with none and ["www."] only if the result does
    not start with it. *)
Theorem formatUrl_strips_a_prefix (url host : string) :
  formatUrl url = host
  <-> exists scheme www,
        In scheme [EmptyString; "https://"; "http://"]
        /\ In www [EmptyString; "www."]
        /\ url = (scheme ++ www ++ host)%string
        /\ (scheme = EmptyString ->
            String.prefix "https://" url = false
            /\ String.prefix "http://" url = false)
        /\ (www = EmptyString -> String.prefix "www." host = false).
Proof.
  split.
  - intros <-. unfold formatUrl.
    destruct (dropPrefix "https://" url) as [rest|] eqn:Es;
      [|destruct (dropPrefix "http://" url) as [rest|] eqn:Ep].
    + apply dropPrefix_Some in Es.
      destruct (www_stripped rest) as (www & Hw & E & Nw).
      exists "https://", www. rewrite <- E.
      repeat split; [simpl; auto | exact Hw | exact Es | discriminate
                    | discriminate | exact Nw].
    + apply dropPrefix_Some in Ep.
      destruct (www_stripped rest) as (www & Hw & E & Nw).
      exists "http://", www. rewrite <- E.
      repeat split; [simpl; auto | exact Hw | exact Ep | discriminate
                    | discriminate | exact Nw].
    + apply dropPrefix_None in Es. apply dropPrefix_None in Ep.
      destruct (www_stripped url) as (www & Hw & E & Nw).
      exists EmptyString, www.
      repeat split; [simpl; auto | exact Hw | exact E | exact Es | exact Ep
                    | exact Nw].
  - intros (scheme & www & Hs & Hw & -> & Ns & Nw).
    assert (stripped : forall rest : string,
               (www ++ host)%string = rest ->
               match dropPrefix "www." rest with
               | Some h => h
               | None => rest
               end = host).
    { intros rest <-. destruct Hw as [<-|[<-|[]]].
      - simpl append. apply dropPrefix_None in Nw; [|reflexivity].
        now rewrite Nw.
      - now rewrite dropPrefix_append. }
    unfold formatUrl.
    destruct Hs as [<-|[<-|[<-|[]]]].
    + destruct (Ns eq_refl) as (N1 & N2).
      apply dropPrefix_None in N1. apply dropPrefix_None in N2.
      rewrite N1, N2. now apply stripped.
    + rewrite dropPrefix_append. now apply stripped.
    + change (dropPrefix "https://" ("http://" ++ www ++ host)) with (@None string).
      rewrite dropPrefix_append. now apply stripped.
Qed.

(** X24. [formatUrl] reduces an address with a scheme and ["www."] to the
    host and what follows it, whatever that is; it removes one ["www."]
    only, and a scheme only at the very start, so that formatting twice
    can give less than formatting once. *)
Theorem formatUrl_of_addresses (host : string) :
  formatUrl ("https://www." ++ host) = host
  /\ formatUrl ("http://www." ++ host) = host
  /\ formatUrl ("www." ++ host) = host
  /\ formatUrl ("www.www." ++ host) = ("www." ++ host)%string
  /\ formatUrl ("www.https://" ++ host) = ("https://" ++ host)%string
  /\ formatUrl (formatUrl ("www.www." ++ host)) = host.
Proof. repeat split. Qed.
